(** * Ray / Tune tutorial notebooks: a shallow embedding of the exercise code

    The notebooks of this repository are glue code around two external
    libraries (a task-execution runtime and a deep-learning framework).
    Each module below embeds the cells of one exercise:

    - [Numpy], [Exercise2]: the four-stage data pipeline of
      exercises/colab01-03.ipynb (binary64 arithmetic on nested lists);
    - [Exercise3]: the nested hyper-parameter sweep of the same notebook;
    - [Ray], [Exercise1]: the remote calls of its first exercise;
    - [Grid]: the grid enumeration of a configuration space;
    - [Torch], [Trainables]: the function-form and class-form trainables of
      the two Tune notebooks, over an interface for the deep-learning
      framework;
    - [Tune]: what the coordinator does with the outcome of a trial;
    - [Reference]: a small instance of the interface, on which the
      trainables can be run. *)

From Stdlib Require Import Floats Ascii.
From stdpp Require Import gmap strings list fin_maps.

(* Decimal literals denote the nearest binary64, as they do in Python. *)
#[local] Set Warnings "-inexact-float".

(** ** Python values stored in configuration dictionaries *)

Inductive pyval :=
| PyInt (z : Z)
| PyFloat (f : float)
| PyStr (s : string).

(** A configuration is a [dict] from hyper-parameter names to values. *)
Abbreviation Config := (gmap string pyval).

(** [range(n)] *)
Definition range (n : nat) : list Z := Z.of_nat <$> seq 0 n.

(** * numpy, on nested lists of binary64 numbers *)

Module Numpy.

Abbreviation vector := (list float).
Abbreviation matrix := (list (list float)).

(** [np.ones(n)] and [np.ones((r, c))] *)
Definition ones (n : nat) : vector := replicate n 1%float.
Definition ones2 (r c : nat) : matrix := replicate r (ones c).

(** [a.shape] of a two-dimensional array *)
Definition shape (a : matrix) : nat * nat :=
  (length a, match a with [] => 0 | r :: _ => length r end).

(** The integer count by which [np.mean] divides, as a binary64. *)
Definition float_of_nat (n : nat) : float :=
  PrimFloat.of_uint63 (Uint63.of_Z (Z.of_nat n)).

(** [np.sum(v)] of a one-dimensional array.  The additions are taken
    from left to right; numpy groups them pairwise, which gives the same
    binary64 whenever every partial sum is exact, as is the case for the
    arrays of [Exercise2]. *)
Definition sum (v : vector) : float := foldl PrimFloat.add 0%float v.

(** [np.sum(a, axis=0)]: the rows are added up one after the other. *)
Definition sum_axis0 (a : matrix) : vector :=
  match a with
  | [] => []
  | r :: rs => foldl (zip_with PrimFloat.add) r rs
  end.

(** [np.mean(a, axis=0)]: the column sums divided by the row count. *)
Definition mean_axis0 (a : matrix) : vector :=
  (fun s => PrimFloat.div s (float_of_nat (length a))) <$> sum_axis0 a.

(** [a - v], the vector [v] broadcast over the rows of [a]. *)
Definition sub_rows (a : matrix) (v : vector) : matrix :=
  (fun r => zip_with PrimFloat.sub r v) <$> a.

(** [v - w] and [v ** 2] on one-dimensional arrays; numpy squares by
    multiplying an element with itself. *)
Definition sub (v w : vector) : vector := zip_with PrimFloat.sub v w.
Definition square (v : vector) : vector := (fun x => PrimFloat.mul x x) <$> v.

(** [a ** 2] on a two-dimensional array *)
Definition square2 (a : matrix) : matrix := square <$> a.

(** [np.hstack([a, b])] of two arrays with the same number of rows *)
Definition hstack (a b : matrix) : matrix := zip_with app a b.

(** [np.dot(a, v)]: one inner product per row. *)
Definition dot (a : matrix) (v : vector) : vector :=
  (fun r => sum (zip_with PrimFloat.mul r v)) <$> a.

End Numpy.

(** * Exercise 2 of colab01-03: the data pipeline

  [time.sleep] only delays a call and is left out: the functions below
  are the values the four stages return. *)

Module Exercise2.

Definition load_data (filename : string) : Numpy.matrix :=
  Numpy.ones2 1000 100.

Definition normalize_data (data : Numpy.matrix) : Numpy.matrix :=
  Numpy.sub_rows data (Numpy.mean_axis0 data).

Definition extract_features (normalized_data : Numpy.matrix) : Numpy.matrix :=
  Numpy.hstack normalized_data (Numpy.square2 normalized_data).

Definition compute_loss (features : Numpy.matrix) : float :=
  let '(num_data, dim) := Numpy.shape features in
  Numpy.sum
    (Numpy.square
       (Numpy.sub (Numpy.dot features (Numpy.ones dim)) (Numpy.ones num_data))).

(** The body of the [for filename in ...] loop. *)
Definition file_loss (filename : string) : float :=
  let data := load_data filename in
  let normalized_data := normalize_data data in
  let features := extract_features normalized_data in
  compute_loss features.

Definition filenames : list string := ["file1"; "file2"; "file3"; "file4"].

Definition losses : list float := file_loss <$> filenames.

(** [sum(losses)]: Python's [sum] starts from the integer [0], which the
    first addition turns into the binary64 zero. *)
Definition loss : float := foldl PrimFloat.add 0%float losses.

End Exercise2.

(** * Exercise 3 of colab01-03: the nested sweep *)

Module Exercise3.

(** [sum] of a list of Python integers *)
Definition py_sum (l : list Z) : Z := foldl Z.add 0%Z l.

Definition compute_gradient (data : Z) (current_model : Z) : Z := 1.

(** One pass of the outer loop of [train_model]. *)
Definition train_step (current_model : Z) : Z :=
  let total_gradient :=
    py_sum ((fun j => compute_gradient j current_model) <$> range 2) in
  (current_model + total_gradient)%Z.

Definition train_model (hyperparameters : Config) : Z :=
  foldl (fun current_model _ => train_step current_model) 0%Z (range 10).

(** The three experiments of the driver cell. *)
Definition experiments : list Config :=
  [ {[ "learning_rate" := PyFloat 0.1%float; "batch_size" := PyInt 100 ]};
    {[ "learning_rate" := PyFloat 0.01%float; "batch_size" := PyInt 100 ]};
    {[ "learning_rate" := PyFloat 0.001%float; "batch_size" := PyInt 100 ]} ].

Definition results : list Z := train_model <$> experiments.

End Exercise3.

(** * Exercise 1 of colab01-03: remote calls

    Modelled from the spec: the task-execution library behind
    [f.remote(...)] and [ray.get] is not part of this repository.  The
    model follows the notebook's own description: a remote call returns an
    object ID at once and its task runs in the background; [ray.get] on a
    list of object IDs blocks until every one of them is resolved and
    returns their values. *)

Module Ray.

Abbreviation ObjectID := nat.

(** The runtime: the next fresh object ID, the values that the tasks still
    running will produce, and the object store of the finished ones. *)
Record runtime := Runtime {
  next_id : ObjectID;
  pending : gmap ObjectID Z;
  store : gmap ObjectID Z
}.

(** Task [id] is still running and will produce [v]. *)
Definition running (rt : runtime) (id : ObjectID) (v : Z) : Prop :=
  pending rt !! id = Some v.

(** Task [id] has finished with value [v]. *)
Definition resolved (rt : runtime) (id : ObjectID) (v : Z) : Prop :=
  store rt !! id = Some v ∧ pending rt !! id = None.

(** [ray.init()] *)
Definition init : runtime := Runtime 0 ∅ ∅.

(** [f.remote(x)]: submit the task and return its object ID. *)
Definition remote (f : Z → Z) (x : Z) (rt : runtime) : ObjectID * runtime :=
  (next_id rt,
   Runtime (S (next_id rt)) (<[next_id rt := f x]> (pending rt)) (store rt)).

(** A worker finishes task [id]: its value moves to the object store. *)
Definition finish (rt : runtime) (id : ObjectID) : runtime :=
  match pending rt !! id with
  | Some v => Runtime (next_id rt) (delete id (pending rt)) (<[id := v]> (store rt))
  | None => rt
  end.

(** A schedule lists the tasks in the order in which they finish. *)
Definition run_schedule (schedule : list ObjectID) (rt : runtime) : runtime :=
  foldl finish rt schedule.

(** [ray.get(ids)] once the runtime has reached [rt]: the values of [ids],
    in the order of [ids]; [None] while one of them is unresolved (the call
    still blocks). *)
Definition get (ids : list ObjectID) (rt : runtime) : option (list Z) :=
  mapM (λ id, store rt !! id) ids.

End Ray.

Module Exercise1.

(** [slow_function] sleeps for a second and returns its argument. *)
Definition slow_function (i : Z) : Z := i.

(** The loop as the notebook ships it: four calls, one after the other. *)
Definition results_serial : list Z := slow_function <$> range 4.

(** The loop of the completed exercise,
    [for i in range(4): results.append(slow_function.remote(i))],
    for any remote function and any list of arguments. *)
Fixpoint submit_all (f : Z → Z) (args : list Z) (rt : Ray.runtime)
  : list Ray.ObjectID * Ray.runtime :=
  match args with
  | [] => ([], rt)
  | x :: args =>
      let '(id, rt) := Ray.remote f x rt in
      let '(ids, rt) := submit_all f args rt in
      (id :: ids, rt)
  end.

(** [results = ray.get(results)] after the tasks finished in the order
    [schedule]. *)
Definition results_parallel (schedule : list Ray.ObjectID) : option (list Z) :=
  let '(ids, rt) := submit_all slow_function (range 4) Ray.init in
  Ray.get ids (Ray.run_schedule schedule rt).

(** The object IDs of the four calls. *)
Definition object_ids : list Ray.ObjectID :=
  (submit_all slow_function (range 4) Ray.init).1.

End Exercise1.

(** * Configuration spaces and their grid enumeration

    Modelled from the spec: [tune.grid_search] and the expansion that
    [tune.run] makes of a configuration space belong to the external
    library.  The spec gives the rule: the enumeration is the cross-product
    over all grid dimensions, one configuration per combination of grid
    values.  A space is a Python [dict] literal, kept here as the list of
    its items in the order in which they are written. *)

Module Grid.

(** The value rules of a space that an enumeration can resolve: a literal
    constant, or [tune.grid_search(values)], which the library represents
    as the dictionary [{"grid_search": values}]. *)
Inductive rule :=
  | literal (v : pyval)
  | grid_search (values : list pyval).

Abbreviation space := (list (string * rule)).

(** The values that a rule can resolve to. *)
Definition choices (r : rule) : list pyval :=
  match r with
  | literal v => [v]
  | grid_search values => values
  end.

(** The cross-product: every way to pick one value per entry. *)
Fixpoint variants (sp : space) : list (list (string * pyval)) :=
  match sp with
  | [] => [[]]
  | (name, r) :: sp =>
      v ← choices r; rest ← variants sp; [(name, v) :: rest]
  end.

(** The configurations handed to the trials. *)
Definition configs (sp : space) : list Config :=
  list_to_map <$> variants sp.

(** The number of combinations: the product of the sizes of the grid
    dimensions (a literal counts once). *)
Fixpoint grid_size (sp : space) : nat :=
  match sp with
  | [] => 1
  | (_, r) :: sp => length (choices r) * grid_size sp
  end.

(** [combination sp c]: [c] picks, for every entry of [sp] in turn, one of
    the values the entry allows. *)
Definition combination (sp : space) (c : list (string * pyval)) : Prop :=
  Forall2 (λ entry item, item.1 = entry.1 ∧ item.2 ∈ choices entry.2) sp c.

(** The space of the grid-search exercise, for the grid values chosen by
    the reader, and the four-dimensional space of its introduction. *)
Definition hyperparameter_space (lr momentum : list pyval) : space :=
  [("lr", grid_search lr); ("momentum", grid_search momentum)].

Definition four_variables (v1 v2 v3 v4 : list pyval) : space :=
  [("variable1", grid_search v1); ("variable2", grid_search v2);
   ("variable3", grid_search v3); ("variable4", grid_search v4)].

End Grid.

(** * The deep-learning framework, as an interface

    The trainables call [torch], [torch.optim] and the helpers of
    [ray.tune.examples.mnist_pytorch]; none of them is part of this
    repository.  They are taken as the operations of a type class, together
    with what the operating system decides about paths.  A call that can
    raise returns a sum, the library's exception on the left. *)

(** What [torch.save] writes: a whole model, or a state dict. *)
Inductive saved (Model StateDict : Type) :=
  | SavedModel (m : Model)
  | SavedState (sd : StateDict).
Arguments SavedModel {Model StateDict} m.
Arguments SavedState {Model StateDict} sd.

Class Torch := {
  Device : Type;
  Loader : Type;
  Model : Type;
  Params : Type;
  Optimizer : Type;
  StateDict : Type;
  Bytes : Type;
  LibError : Type;
  (** [torch.device("cpu")] *)
  cpu : Device;
  (** [get_data_loaders()] and [ConvNet()], as they turn out in this run *)
  get_data_loaders : LibError + Loader * Loader;
  ConvNet : LibError + Model;
  (** [model.to(device)] and [model.parameters()] *)
  to : Model → Device → Model;
  parameters : Model → Params;
  (** [optim.SGD(params, lr=..., momentum=...)] *)
  SGD : Params → pyval → pyval → LibError + Optimizer;
  (** [train(model, optimizer, loader, device=...)] works in place: it
      leaves a model and an optimizer behind also when it raises.  [None]
      stands for an omitted [device] argument. *)
  train : Model → Optimizer → Loader → option Device →
          Model * Optimizer * option LibError;
  (** [test(model, loader, device)] returns the accuracy. *)
  test : Model → Loader → option Device → LibError + float;
  (** [model.state_dict()] *)
  state_dict : Model → StateDict;
  (** [model.load_state_dict(obj)], on whatever object [torch.load]
      returned, works in place: it leaves a model behind also when it
      raises (a strict load copies the matching tensors before it reports
      the others). *)
  load_state_dict : Model → saved Model StateDict → Model * option LibError;
  (** the serialization behind [torch.save] and [torch.load] *)
  dumps : saved Model StateDict → Bytes;
  loads : Bytes → LibError + saved Model StateDict;
  (** the file that a path names (working directory, [.] and [..]
      components, links), the directories that exist, and what
      [torch.save] raises for a path whose directory does not exist; the
      working directory exists *)
  realpath : string → string;
  isdir : string → bool;
  no_such_directory : string → LibError;
  isdir_cwd : isdir "." = true
}.

(** [os.path.join(a, b)] of [posixpath] *)
Definition ends_with_sep (a : string) : bool :=
  String.prefix "/" (String.rev a).

Definition os_path_join (a b : string) : string :=
  if String.prefix "/" b then b
  else if bool_decide (a = "") || ends_with_sep a then a +:+ b
  else a +:+ "/" +:+ b.

(** [os.path.dirname(p)] of [posixpath]: the part of [p] up to its last
    separator, without trailing separators unless it consists of them. *)
Fixpoint drop_until_sep (l : list Ascii.ascii) : list Ascii.ascii :=
  match l with
  | [] => []
  | c :: l' => if Ascii.eqb c "/"%char then l else drop_until_sep l'
  end.

Fixpoint drop_seps (l : list Ascii.ascii) : list Ascii.ascii :=
  match l with
  | [] => []
  | c :: l' => if Ascii.eqb c "/"%char then drop_seps l' else l
  end.

Definition dirname (p : string) : string :=
  let head := drop_until_sep (reverse (String.list_ascii_of_string p)) in
  match drop_seps head with
  | [] => String.string_of_list_ascii (reverse head)
  | stripped => String.string_of_list_ascii (reverse stripped)
  end.

(** The files that exist, each under the name [realpath] gives it. *)
Abbreviation Files := (gmap string Bytes).

(** A file can be created at [path] when the directory part of the path is
    empty (the working directory) or an existing directory. *)
Definition can_write `{T : Torch} (path : string) : bool :=
  bool_decide (dirname path = "") || isdir (dirname path).

(** * The trainables of the Tune notebooks *)

Module Trainables.
Section WithTorch.
Context `{T : Torch}.

(** Python exceptions *)
Inductive exn :=
  | KeyError (key : string)
  | AttributeError (attr : string)
  | FileNotFoundError (path : string)
  | Raised (e : LibError).

(** A computation over a state [S] that returns or raises; the state it
    leaves behind is kept in both cases. *)
Definition M (S A : Type) : Type := S → (exn + A) * S.

#[global] Instance M_ret {S} : MRet (M S) := λ A x s, (inr x, s).
#[global] Instance M_bind {S} : MBind (M S) := λ A B f c s,
  match c s with
  | (inr x, s') => f x s'
  | (inl e, s') => (inl e, s')
  end.

Definition raise {S A} (e : exn) : M S A := λ s, (inl e, s).

(** A library call that touches no state of ours. *)
Definition lib {S A} (r : LibError + A) : M S A := λ s,
  (match r with inl e => inl (Raised e) | inr x => inr x end, s).

(** [d[key]] and [d.get(key, default)] *)
Definition getitem {S} (d : Config) (key : string) : M S pyval :=
  match d !! key with
  | Some v => mret v
  | None => raise (KeyError key)
  end.

Definition dict_get (d : Config) (key : string) (dflt : pyval) : pyval :=
  default dflt (d !! key).

(** [for i in l: acc = body(i, acc)] *)
Fixpoint for_each {S A B} (body : A → B → M S B) (l : list A) (acc : B) : M S B :=
  match l with
  | [] => mret acc
  | i :: l => acc ← body i acc; for_each body l acc
  end.

(** [torch.save(obj, path)]: the write raises when the directory of the
    path does not exist, and replaces the file that the path names
    otherwise (other failures of the file system are left out). *)
Definition torch_save (o : saved Model StateDict) (path : string) : M Files () :=
  λ fs,
  if can_write path then (inr (), <[realpath path := dumps o]> fs)
  else (inl (Raised (no_such_directory path)), fs).

(** [torch.load(path)]: a missing file raises [FileNotFoundError]; what is
    read from an existing one is for the library to decide. *)
Definition torch_load (path : string) : M Files (saved Model StateDict) := λ fs,
  (match fs !! realpath path with
   | None => inl (FileNotFoundError path)
   | Some b =>
       match loads b with
       | inl e => inl (Raised e)
       | inr o => inr o
       end
   end, fs).

(** ** The function form: [train_mnist] (state: the trial directory) *)

(** [train(model, optimizer, train_loader)] on local variables *)
Definition call_train (model : Model) (optimizer : Optimizer) (loader : Loader)
  : M Files (Model * Optimizer) := λ fs,
  let '(model, optimizer, r) := train model optimizer loader None in
  (match r with Some e => inl (Raised e) | None => inr (model, optimizer) end, fs).

(** One pass of the loop [for i in range(20)]. *)
Definition epoch (train_loader test_loader : Loader) (i : Z)
    (st : Model * Optimizer) : M Files (Model * Optimizer) :=
  '(model, optimizer) ← call_train st.1 st.2 train_loader;
  acc ← lib (test model test_loader None);
  (if bool_decide (i `mod` 5 = 0)%Z
   then torch_save (SavedModel model) "./model.pth"
   else mret ());;
  mret (model, optimizer).

Definition train_mnist (config : Config) : M Files () :=
  model ← lib ConvNet;
  '(train_loader, test_loader) ← lib get_data_loaders;
  lr ← getitem config "lr";
  momentum ← getitem config "momentum";
  optimizer ← lib (SGD (parameters model) lr momentum);
  for_each (epoch train_loader test_loader) (range 20) (model, optimizer);;
  mret ().

(** ** The class form: [PytorchTrainble]

    An attribute that has not been assigned is [None]. *)
Record PytorchTrainble := Self {
  device : option Device;
  train_loader : option Loader;
  test_loader : option Loader;
  model : option Model;
  optimizer : option Optimizer
}.

(** The object before [_setup] has run. *)
Definition blank : PytorchTrainble := Self None None None None None.

(** The methods run on the object and the checkpoint files. *)
Definition World : Type := PytorchTrainble * Files.

(** [self.attr] *)
Definition getattr {A} (name : string) (field : PytorchTrainble → option A)
  : M World A := λ w,
  match field w.1 with
  | Some x => (inr x, w)
  | None => (inl (AttributeError name), w)
  end.

(** [self.attr = ...] and [del self.attr] *)
Definition update (f : PytorchTrainble → PytorchTrainble) : M World () :=
  λ w, (inr (), (f w.1, w.2)).

Definition set_device (d : option Device) (o : PytorchTrainble) :=
  Self d (train_loader o) (test_loader o) (model o) (optimizer o).
Definition set_loaders (tr te : option Loader) (o : PytorchTrainble) :=
  Self (device o) tr te (model o) (optimizer o).
Definition set_model (m : option Model) (o : PytorchTrainble) :=
  Self (device o) (train_loader o) (test_loader o) m (optimizer o).
Definition set_optimizer (op : option Optimizer) (o : PytorchTrainble) :=
  Self (device o) (train_loader o) (test_loader o) (model o) op.

(** A file operation, run on the checkpoint files. *)
Definition on_files {A} (c : M Files A) : M World A := λ w,
  let '(r, fs) := c w.2 in (r, (w.1, fs)).

Definition delattr_optimizer : M World () :=
  getattr "optimizer" optimizer;; update (set_optimizer None).

Definition _setup (config : Config) : M World () :=
  update (set_device (Some cpu));;
  '(tr, te) ← lib get_data_loaders;
  update (set_loaders (Some tr) (Some te));;
  net ← lib ConvNet;
  d ← getattr "device" device;
  update (set_model (Some (to net d)));;
  m ← getattr "model" model;
  opt ← lib (SGD (parameters m)
               (dict_get config "lr" (PyFloat 0.01))
               (dict_get config "momentum" (PyFloat 0.9)));
  update (set_optimizer (Some opt)).

Definition _train : M World Config :=
  m ← getattr "model" model;
  opt ← getattr "optimizer" optimizer;
  tr ← getattr "train_loader" train_loader;
  d ← getattr "device" device;
  (let '(m', opt', r) := train m opt tr (Some d) in
   update (set_model (Some m'));;
   update (set_optimizer (Some opt'));;
   match r with Some e => raise (Raised e) | None => mret () end);;
  m ← getattr "model" model;
  te ← getattr "test_loader" test_loader;
  d ← getattr "device" device;
  acc ← lib (test m te (Some d));
  mret {[ "mean_accuracy" := PyFloat acc ]}.

Definition _save (checkpoint_dir : string) : M World string :=
  let checkpoint_path := os_path_join checkpoint_dir "model.pth" in
  m ← getattr "model" model;
  on_files (torch_save (SavedState (state_dict m)) checkpoint_path);;
  mret checkpoint_path.

Definition _restore (checkpoint_path : string) : M World () :=
  m ← getattr "model" model;
  o ← on_files (torch_load checkpoint_path);
  (let '(m', r) := load_state_dict m o in
   update (set_model (Some m'));;
   match r with Some e => raise (Raised e) | None => mret () end).

Definition reset_config (new_config : Config) : M World bool :=
  delattr_optimizer;;
  m ← getattr "model" model;
  opt ← lib (SGD (parameters m)
               (dict_get new_config "lr" (PyFloat 0.01))
               (dict_get new_config "momentum" (PyFloat 0.9)));
  update (set_optimizer (Some opt));;
  mret true.

End WithTorch.
End Trainables.

(** * The coordinator

    Modelled from the spec: [tune.run] belongs to the external library.
    The spec gives what it does with a trainable that raises: the
    exception is caught, recorded as the error artifact of that trial, and
    the other trials of the run are not affected.  Every trial runs in a
    process and a working directory of its own. *)

Module Tune.
Section WithTorch.
Context `{T : Torch}.
Import Trainables.

Inductive status := TERMINATED | ERROR.

Record trial := Trial {
  trial_config : Config;
  trial_status : status;
  error_file : option exn;
  logdir : Files
}.

Definition run_trial (trainable : Config → M Files ()) (config : Config) : trial :=
  let '(r, dir) := trainable config ∅ in
  match r with
  | inr _ => Trial config TERMINATED None dir
  | inl e => Trial config ERROR (Some e) dir
  end.

(** One trial per configuration. *)
Definition run (trainable : Config → M Files ()) (configs : list Config) : list trial :=
  run_trial trainable <$> configs.

End WithTorch.
End Tune.

(** * A small instance of the interface

    Models are weight vectors, a state dict is the weight vector itself,
    [SGD] accepts numbers only and [train] adds the learning rate to every
    weight.  With [library (Some n)], [train] raises once the first weight
    has reached [n].  A state dict is loaded if it has the size of the
    model; the directories are the working directory and [ckpt], and a
    leading [./] does not change the file that a path names. *)

Module Reference.

Definition sgd (p : list float) (lr momentum : pyval)
  : string + list float * float * float :=
  match lr, momentum with
  | PyFloat l, PyFloat m => inr (p, l, m)
  | _, _ => inl "TypeError"
  end.

Definition train_until (limit : option float) (m : list float)
    (o : list float * float * float) (l : string) (d : option string)
  : list float * (list float * float * float) * option string :=
  let stepped := ((λ w, PrimFloat.add w o.1.2) <$> m, o, None) in
  match limit, m with
  | Some n, w :: _ =>
      if PrimFloat.leb n w then (m, o, Some "RuntimeError") else stepped
  | _, _ => stepped
  end.

Definition load (m : list float) (o : saved (list float) (list float))
  : list float * option string :=
  match o with
  | SavedState sd =>
      if bool_decide (length sd = length m) then (sd, None)
      else (m, Some "RuntimeError")
  | SavedModel _ => (m, Some "TypeError")
  end.

Definition strip_dot (p : string) : string :=
  if String.prefix "./" p then String.substring 2 (String.length p - 2) p else p.

Definition library (limit : option float) : Torch := {|
  Device := string;
  Loader := string;
  Model := list float;
  Params := list float;
  Optimizer := list float * float * float;
  StateDict := list float;
  Bytes := saved (list float) (list float);
  LibError := string;
  cpu := "cpu";
  get_data_loaders := inr ("train", "test");
  ConvNet := inr [0; 0]%float;
  to := λ m _, m;
  parameters := λ m, m;
  SGD := sgd;
  train := train_until limit;
  test := λ _ _ _, inr 0.5%float;
  state_dict := λ m, m;
  load_state_dict := load;
  dumps := λ o, o;
  loads := inr;
  realpath := strip_dot;
  isdir := λ d, bool_decide (d ∈ ["."; "ckpt"]);
  no_such_directory := λ _, "FileNotFoundError";
  isdir_cwd := eq_refl
|}.

Definition torch : Torch := library None.
Definition flaky : Torch := library (Some 8%float).

(** An object of the class after [_setup], and two configurations. *)
Definition trainable : Trainables.PytorchTrainble (T := torch) :=
  Trainables.Self (T := torch) (Some "cpu") (Some "train") (Some "test")
    (Some [1; 2]%float) (Some ([1; 2], 0.01, 0.9)%float).

Definition fast : Config :=
  {[ "lr" := PyFloat 4%float; "momentum" := PyFloat 0.9%float ]}.
Definition slow : Config :=
  {[ "lr" := PyFloat 0.25%float; "momentum" := PyFloat 0.9%float ]}.

End Reference.

(** * Passes of the training loop *)

Module Passes.
Section WithTorch.
Context `{T : Torch}.

(** The model and optimizer that [n] calls of
    [train(model, optimizer, train_loader)] leave behind. *)
Definition trained (train_loader : Loader) (n : nat) (st : Model * Optimizer)
  : Model * Optimizer :=
  Nat.iter n (λ st, (train st.1 st.2 train_loader None).1) st.

End WithTorch.
End Passes.

(** * The web-scraping application of colab01-03

    [requests.get] and the HTML parser are taken as given: a page is what
    [soup.find_all(class_='commit-title')] returns, each element with the
    results of its two [find_all] calls; a tag is the dictionary of its
    attributes.  A data frame is kept as its column names and its rows, a
    row holding the columns that are not missing. *)

Module Scrape.

Inductive error :=
  | IndexError
  | KeyError (key : string)
  | ValueError.

#[global] Instance error_ret : MRet (sum error) := λ A x, inr x.
#[global] Instance error_bind : MBind (sum error) := λ A B f c,
  match c with
  | inr x => f x
  | inl e => inl e
  end.

Abbreviation tag := (gmap string string).

Record commit_title := CommitTitle {
  messages : list tag;      (* [g.find_all(class_='message')] *)
  issue_links : list tag    (* [g.find_all(class_='issue-link')] *)
}.

(** [l[0]] and [tag[key]] *)
Definition first {A} (l : list A) : error + A :=
  match l with
  | [] => inl IndexError
  | x :: _ => inr x
  end.

Definition attr (t : tag) (key : string) : error + string :=
  match t !! key with
  | Some v => inr v
  | None => inl (KeyError key)
  end.

Abbreviation row := (gmap string string).

Record DataFrame := Frame {
  columns : list string;
  rows : list row
}.

(** [pd.DataFrame(entry, index=[0])], [entry] with its keys in the order in
    which they were assigned *)
Definition frame_of_entry (entry : list (string * string)) : DataFrame :=
  Frame entry.*1 [list_to_map entry].

(** [df.append(other, sort=False)] *)
Definition append (df other : DataFrame) : DataFrame :=
  Frame (columns df ++ filter (λ c, c ∉ columns df) (columns other))
        (rows df ++ rows other).

(** [df[column] = value] *)
Definition set_column (column value : string) (df : DataFrame) : DataFrame :=
  Frame (if decide (column ∈ columns df) then columns df
         else columns df ++ [column])
        (<[column := value]> <$> rows df).

(** [pd.concat(frames, sort=False)] *)
Definition pd_concat (frames : list DataFrame) : error + DataFrame :=
  match frames with
  | [] => inl ValueError
  | df :: frames => inr (foldl append df frames)
  end.

(** ['https://github.com/{}/commits/master'.format(repo)] *)
Definition url (repo : string) : string :=
  "https://github.com/" +:+ repo +:+ "/commits/master".

(** The body of the loop over the elements of the page. *)
Definition add_commit (df : DataFrame) (g : commit_title) : error + DataFrame :=
  message ← first (messages g);
  title ← attr message "aria-label";
  let entry := [("title", title)] in
  entry ← match issue_links g with
          | [] => mret entry
          | l :: _ => link ← attr l "data-url"; mret (entry ++ [("link", link)])
          end;
  mret (append df (frame_of_entry entry)).

Fixpoint add_commits (df : DataFrame) (soup : list commit_title)
  : error + DataFrame :=
  match soup with
  | [] => mret df
  | g :: soup => df ← add_commit df g; add_commits df soup
  end.

Definition fetch_commits (web : string → list commit_title) (repo : string)
  : error + DataFrame :=
  let soup := web (url repo) in
  df ← add_commits (Frame ["title"; "link"] []) soup;
  mret (set_column "repository" repo df).

(** The serial driver: one frame per repository, then [pd.concat]. *)
Definition scrape (web : string → list commit_title) (repos : list string)
  : error + DataFrame :=
  results ← mapM (fetch_commits web) repos;
  pd_concat results.

Definition repos : list string :=
  ["ray-project/ray"; "modin-project/modin"; "tensorflow/tensorflow"; "apache/arrow"].

(** What a well-formed element contributes: its title, and its first issue
    link if it has one. *)
Definition title_of (g : commit_title) : option string :=
  head (messages g) ≫= (.!! "aria-label").

Definition link_of (g : commit_title) : option string :=
  head (issue_links g) ≫= (.!! "data-url").

(** The element can be read: it has a message with an [aria-label], and
    its first issue link, if any, has a [data-url]. *)
Definition readable (g : commit_title) : Prop :=
  is_Some (title_of g) ∧ (issue_links g = [] ∨ is_Some (link_of g)).

End Scrape.

(** * Theorems *)

(** ** The data pipeline *)

Lemma file_loss_const filename : Exercise2.file_loss filename = 1000%float.
Proof. vm_compute. reflexivity. Qed.

(** C1: [load_data] returns the 1000x100 matrix of ones, whose
    normalization is the zero matrix and whose features are the 1000x200
    zero matrix; each of the four per-file losses of the pipeline
    [load_data], [normalize_data], [extract_features], [compute_loss] is
    exactly 1000, and their sum is exactly 4000. *)
Theorem pipeline_loss_4000 :
  (forall filename,
     Exercise2.load_data filename = replicate 1000 (replicate 100 1%float)
     /\ Exercise2.normalize_data (Exercise2.load_data filename)
        = replicate 1000 (replicate 100 0%float)
     /\ Exercise2.extract_features
          (Exercise2.normalize_data (Exercise2.load_data filename))
        = replicate 1000 (replicate 200 0%float)
     /\ Exercise2.file_loss filename = 1000%float)
  /\ Exercise2.losses = [1000; 1000; 1000; 1000]%float
  /\ Exercise2.loss = 4000%float.
Proof.
  split; [|split].
  - intros filename. split; [reflexivity|].
    split; [vm_compute; reflexivity|].
    split; [vm_compute; reflexivity | apply file_loss_const].
  - unfold Exercise2.losses, Exercise2.filenames. cbn [fmap list_fmap].
    by rewrite !file_loss_const.
  - unfold Exercise2.loss, Exercise2.losses, Exercise2.filenames.
    cbn [fmap list_fmap]. rewrite !file_loss_const. vm_compute. reflexivity.
Qed.

(** ** The nested sweep *)

Lemma train_step_adds_two cm : Exercise3.train_step cm = (cm + 2)%Z.
Proof.
  unfold Exercise3.train_step, Exercise3.py_sum, Exercise3.compute_gradient.
  change (range 2) with [0%Z; 1%Z]. cbn [fmap list_fmap foldl]. lia.
Qed.

Lemma train_loop_linear (l : list Z) (cm : Z) :
  foldl (fun current_model _ => Exercise3.train_step current_model) cm l
  = (cm + 2 * Z.of_nat (length l))%Z.
Proof.
  revert cm. induction l as [|j l IH]; intros cm; cbn [foldl length].
  - lia.
  - rewrite IH, train_step_adds_two. lia.
Qed.

(** C9: [train_model] returns 20 whatever hyper-parameters it is given:
    every one of its ten iterations adds the total gradient 2 (two calls of
    [compute_gradient], each returning 1), and the result is the same for
    any two hyper-parameter dictionaries. *)
Theorem train_model_is_20 :
  (forall data cm, Exercise3.compute_gradient data cm = 1%Z)
  /\ (forall cm, Exercise3.train_step cm = (cm + 2)%Z)
  /\ (forall hyperparameters, Exercise3.train_model hyperparameters = 20%Z)
  /\ (forall h1 h2, Exercise3.train_model h1 = Exercise3.train_model h2)
  /\ Exercise3.results = [20; 20; 20]%Z.
Proof.
  assert (H20 : forall h, Exercise3.train_model h = 20%Z).
  { intros h. unfold Exercise3.train_model. by rewrite train_loop_linear. }
  split; [reflexivity|].
  split; [apply train_step_adds_two|].
  split; [apply H20|].
  split.
  - intros h1 h2. by rewrite !H20.
  - unfold Exercise3.results, Exercise3.experiments. cbn [fmap list_fmap].
    by rewrite !H20.
Qed.

(** ** Remote calls *)

Section RaySchedule.
Import Ray.

Lemma finish_resolved rt id v j :
  resolved rt id v → resolved (finish rt j) id v.
Proof.
  intros [Hs Hp]. unfold finish.
  destruct (pending rt !! j) as [w|] eqn:Hj; [|done].
  assert (j ≠ id) by congruence.
  split; cbn; by simplify_map_eq.
Qed.

Lemma finish_self rt id v : running rt id v → resolved (finish rt id) id v.
Proof.
  unfold running, finish. intros ->. split; cbn; by simplify_map_eq.
Qed.

Lemma finish_other rt id v j :
  j ≠ id → running rt id v → running (finish rt j) id v.
Proof.
  unfold running, finish. intros Hne Hid.
  destruct (pending rt !! j); [cbn; by simplify_map_eq | done].
Qed.

Lemma run_schedule_resolved schedule rt id v :
  resolved rt id v → resolved (run_schedule schedule rt) id v.
Proof.
  revert rt. induction schedule as [|j schedule IH]; intros rt H; [done|].
  apply IH. by apply finish_resolved.
Qed.

(** Whatever the order, a task that occurs in the schedule is resolved at
    its end, with the value it was submitted with. *)
Lemma run_schedule_finishes schedule rt id v :
  id ∈ schedule → running rt id v → resolved (run_schedule schedule rt) id v.
Proof.
  revert rt. induction schedule as [|j schedule IH]; intros rt Hin Hrun.
  - by apply elem_of_nil in Hin.
  - cbn. destruct (decide (j = id)) as [->|Hne].
    + apply run_schedule_resolved. by apply finish_self.
    + apply IH; [|by apply finish_other].
      apply elem_of_cons in Hin as [?|?]; [congruence|done].
Qed.

End RaySchedule.

(** What the submission loop leaves behind: consecutive fresh object IDs,
    one running task per argument, and the older entries untouched. *)
Lemma submit_all_spec f args rt :
  let '(ids, rt') := Exercise1.submit_all f args rt in
  ids = seq (Ray.next_id rt) (length args)
  ∧ (∀ i x, args !! i = Some x →
       Ray.pending rt' !! (Ray.next_id rt + i) = Some (f x))
  ∧ (∀ k, k < Ray.next_id rt → Ray.pending rt' !! k = Ray.pending rt !! k).
Proof.
  revert rt. induction args as [|a args IH]; intros rt; cbn.
  - split; [done|]. split; [|done]. intros i x Hi. by rewrite lookup_nil in Hi.
  - specialize (IH (Ray.Runtime (S (Ray.next_id rt))
                      (<[Ray.next_id rt := f a]> (Ray.pending rt)) (Ray.store rt))).
    destruct (Exercise1.submit_all f args _) as [ids rt'].
    cbn in IH. destruct IH as (-> & Hnew & Hold).
    split; [done|]. split.
    + intros [|i] x Hi; cbn in Hi.
      * injection Hi as ->. rewrite Hold by lia.
        rewrite Nat.add_0_r. by rewrite lookup_insert_eq.
      * replace (Ray.next_id rt + S i) with (S (Ray.next_id rt) + i) by lia.
        by apply Hnew.
    + intros k Hk. rewrite Hold by lia. rewrite lookup_insert_ne by lia. done.
Qed.

(** [ray.get] on the object IDs of a submission loop returns the results in
    submission order as soon as every submitted task has finished, in
    whatever order the schedule finishes them. *)
Lemma get_submit_all f args rt schedule :
  let '(ids, rt') := Exercise1.submit_all f args rt in
  ids ⊆ schedule →
  Ray.get ids (Ray.run_schedule schedule rt') = Some (f <$> args).
Proof.
  pose proof (submit_all_spec f args rt) as Hspec.
  destruct (Exercise1.submit_all f args rt) as [ids rt'].
  destruct Hspec as (-> & Hnew & _). intros Hsub.
  apply mapM_Some, Forall2_same_length_lookup_2.
  { by rewrite length_seq, length_fmap. }
  intros i id y Hid Hy.
  apply lookup_seq in Hid as [-> Hi].
  rewrite list_lookup_fmap in Hy.
  destruct (args !! i) as [x|] eqn:Hx; [|done]. injection Hy as <-.
  eapply run_schedule_finishes; [|by apply Hnew].
  apply Hsub, list_elem_of_lookup. exists i. apply lookup_seq. done.
Qed.

(** C3: resolving the object IDs of the four calls [slow_function.remote(i)],
    [i] in [range(4)], yields exactly [[0, 1, 2, 3]]: each call returns its
    own argument, and the result list keeps the submission order for every
    order in which the four tasks finish. *)
Theorem remote_results_in_submission_order :
  (∀ i, Exercise1.slow_function i = i)
  ∧ Exercise1.results_serial = [0; 1; 2; 3]%Z
  ∧ (∀ schedule : list Ray.ObjectID,
       schedule ≡ₚ Exercise1.object_ids →
       Exercise1.results_parallel schedule = Some [0; 1; 2; 3]%Z).
Proof.
  split; [done|]. split; [done|].
  intros schedule Hperm. unfold Exercise1.results_parallel.
  pose proof (get_submit_all Exercise1.slow_function (range 4) Ray.init schedule) as H.
  unfold Exercise1.object_ids in Hperm.
  destruct (Exercise1.submit_all _ _ _) as [ids rt']. cbn in Hperm.
  rewrite H; [done|]. intros id Hid. by rewrite Hperm.
Qed.

(** The four tasks finish in the order 2, 0, 3, 1. *)
Lemma remote_results_witness :
  Exercise1.results_parallel [2; 0; 3; 1] = Some [0; 1; 2; 3]%Z.
Proof.
  apply (proj2 (proj2 remote_results_in_submission_order)).
  apply (bool_decide_unpack _). vm_compute. exact I.
Defined.

(** ** Grid enumeration *)

Lemma length_bind_const {A B} (f : A → list B) (l : list A) (n : nat) :
  (∀ x, length (f x) = n) → length (l ≫= f) = length l * n.
Proof.
  intros Hf. induction l as [|x l IH]; cbn; [done|].
  rewrite length_app, Hf, IH. lia.
Qed.

Lemma length_variants sp : length (Grid.variants sp) = Grid.grid_size sp.
Proof.
  induction sp as [|[name r] sp IH]; cbn [Grid.variants Grid.grid_size]; [done|].
  apply length_bind_const. intros v.
  rewrite (length_bind_const _ _ 1); [lia | done].
Qed.

Lemma elem_of_variants sp c : c ∈ Grid.variants sp ↔ Grid.combination sp c.
Proof.
  unfold Grid.combination. revert c.
  induction sp as [|[name r] sp IH]; intros c; cbn [Grid.variants].
  - rewrite list_elem_of_singleton. split; [intros ->; constructor|].
    by intros ->%Forall2_nil_inv_l.
  - rewrite list_elem_of_bind. split.
    + intros (v & (rest & Hc & Hrest)%list_elem_of_bind & Hv).
      apply list_elem_of_singleton in Hc as ->.
      constructor; [done|]. by apply IH.
    + intros (item & rest & [Hname Hval] & Hrest & ->)%Forall2_cons_inv_l.
      destruct item as [name' v]; cbn in *. subst name'.
      exists v. split; [|done]. apply list_elem_of_bind.
      exists rest. split; [by apply list_elem_of_singleton | by apply IH].
Qed.

Lemma NoDup_variants sp :
  Forall (λ entry, NoDup (Grid.choices entry.2)) sp → NoDup (Grid.variants sp).
Proof.
  induction 1 as [|[name r] sp Hr Hsp IH]; cbn [Grid.variants].
  - apply NoDup_singleton.
  - cbn in Hr. apply NoDup_bind; [| |done].
    + intros v1 v2 c _ _ (r1 & Hc1 & _)%list_elem_of_bind
        (r2 & Hc2 & _)%list_elem_of_bind.
      apply list_elem_of_singleton in Hc1, Hc2. congruence.
    + intros v _. apply NoDup_bind; [| |done].
      * intros r1 r2 c _ _ Hc1 Hc2.
        apply list_elem_of_singleton in Hc1, Hc2. congruence.
      * intros. apply NoDup_singleton.
Qed.

(** Two combinations of a space with distinct names that give the same
    dictionary are the same combination. *)
Lemma combination_dict_inj sp c1 c2 :
  NoDup sp.*1 → Grid.combination sp c1 → Grid.combination sp c2 →
  list_to_map (M := Config) c1 = list_to_map c2 → c1 = c2.
Proof.
  unfold Grid.combination. intros Hnd H1. revert c2.
  induction H1 as [|[name r] [n1 v1] sp c1 [Hn1 Hv1] H1 IH]; intros c2 H2 Heq.
  - by apply Forall2_nil_inv_l in H2.
  - apply Forall2_cons_inv_l in H2 as ([n2 v2] & c2' & [Hn2 Hv2] & H2 & ->).
    cbn in *. subst n1 n2. apply NoDup_cons in Hnd as [Hname Hnd].
    assert (Hfresh : ∀ c, Forall2 (λ entry item : string * _,
                            item.1 = entry.1 ∧ item.2 ∈ Grid.choices entry.2) sp c →
                          list_to_map (M := Config) c !! name = None).
    { intros c Hc. apply not_elem_of_list_to_map_1.
      replace (c.*1) with (sp.*1); [done|].
      clear -Hc. induction Hc as [|? ? ? ? [? ?]]; cbn; congruence. }
    assert (v1 = v2) as ->.
    { apply (f_equal (.!! name)) in Heq. rewrite !lookup_insert_eq in Heq.
      congruence. }
    f_equal. apply IH; [done..|].
    apply (f_equal (delete name)) in Heq.
    rewrite !delete_insert_eq in Heq.
    by rewrite !delete_id in Heq by auto.
Qed.

Lemma NoDup_configs sp :
  NoDup sp.*1 → Forall (λ entry, NoDup (Grid.choices entry.2)) sp →
  NoDup (Grid.configs sp).
Proof.
  intros Hnames Hvals. unfold Grid.configs.
  apply NoDup_fmap_2_strong; [|by apply NoDup_variants].
  intros c1 c2 Hc1%elem_of_variants Hc2%elem_of_variants.
  by apply (combination_dict_inj sp).
Qed.

(** C2: grid enumeration is the cross-product over the grid dimensions, with
    exactly one configuration per combination of grid values: the
    enumerated variants are the combinations, without repetition, as many
    as the product of the dimension sizes; two five-valued dimensions ([lr]
    and [momentum]) give twenty-five configurations and four three-valued
    ones give eighty-one. *)
Theorem grid_enumeration_cross_product :
  (∀ sp, length (Grid.configs sp) = Grid.grid_size sp)
  ∧ (∀ sp c, c ∈ Grid.variants sp ↔ Grid.combination sp c)
  ∧ (∀ sp, NoDup sp.*1 →
       Forall (λ entry, NoDup (Grid.choices entry.2)) sp →
       NoDup (Grid.variants sp) ∧ NoDup (Grid.configs sp))
  ∧ (∀ lr momentum, length lr = 5 → length momentum = 5 →
       length (Grid.configs (Grid.hyperparameter_space lr momentum)) = 25)
  ∧ (∀ v1 v2 v3 v4,
       length v1 = 3 → length v2 = 3 → length v3 = 3 → length v4 = 3 →
       length (Grid.configs (Grid.four_variables v1 v2 v3 v4)) = 81).
Proof.
  assert (Hlen : ∀ sp, length (Grid.configs sp) = Grid.grid_size sp).
  { intros sp. unfold Grid.configs. by rewrite length_fmap, length_variants. }
  split; [done|]. split; [intros; apply elem_of_variants|]. split; [|split].
  - intros sp Hnames Hvals. split; [by apply NoDup_variants | by apply NoDup_configs].
  - intros lr momentum Hlr Hmom. rewrite Hlen. cbn. rewrite Hlr, Hmom. done.
  - intros v1 v2 v3 v4 H1 H2 H3 H4. rewrite Hlen. cbn.
    rewrite H1, H2, H3, H4. done.
Qed.

(** Five values between 0.001 and 0.9 for both dimensions, and the grids
    [[1, 2, 3]] of the introduction. *)
Lemma grid_enumeration_witness :
  let five := PyFloat <$> [0.001; 0.01; 0.1; 0.5; 0.9]%float in
  let three := PyInt <$> [1; 2; 3]%Z in
  length (Grid.configs (Grid.hyperparameter_space five five)) = 25
  ∧ length (Grid.configs (Grid.four_variables three three three three)) = 81.
Proof.
  destruct grid_enumeration_cross_product as (_ & _ & _ & H25 & H81).
  split; [apply H25 | apply H81]; reflexivity.
Defined.

(** ** The trainables *)

(** Unfolds the monad of the trainables down to matches on their state. *)
Tactic Notation "run_m" "in" hyp(H) :=
  cbv [mbind Trainables.M_bind mret Trainables.M_ret Trainables.raise
       Trainables.lib Trainables.getattr Trainables.update
       Trainables.on_files Trainables.delattr_optimizer
       Trainables.torch_save Trainables.torch_load Trainables.getitem
       fst snd Trainables.model Trainables.optimizer Trainables.device
       Trainables.train_loader Trainables.test_loader
       Trainables.set_device Trainables.set_loaders Trainables.set_model
       Trainables.set_optimizer] in H.

Ltac run_m :=
  cbv [mbind Trainables.M_bind mret Trainables.M_ret Trainables.raise
       Trainables.lib Trainables.getattr Trainables.update
       Trainables.on_files Trainables.delattr_optimizer
       Trainables.torch_save Trainables.torch_load Trainables.getitem
       fst snd Trainables.model Trainables.optimizer Trainables.device
       Trainables.train_loader Trainables.test_loader
       Trainables.set_device Trainables.set_loaders Trainables.set_model
       Trainables.set_optimizer].

Section TrainableFacts.
Context `{T : Torch}.
Import Trainables.

(** Whatever happens in [reset_config], only the [optimizer] attribute can
    change, and a returned value is [True]. *)
Lemma reset_config_frame (new_config : Config) (w : World) :
  let '(r, w') := reset_config new_config w in
  device w'.1 = device w.1 ∧ train_loader w'.1 = train_loader w.1
  ∧ test_loader w'.1 = test_loader w.1 ∧ model w'.1 = model w.1
  ∧ w'.2 = w.2 ∧ (∀ b, r = inr b → b = true).
Proof.
  destruct w as [[d tr te m o] fs]. unfold reset_config. run_m.
  destruct o as [o|]; cbn; [|by repeat split].
  destruct m as [m|]; cbn; [|by repeat split].
  destruct (SGD _ _ _) as [e|o']; cbn; repeat split; congruence.
Qed.

End TrainableFacts.

Section ClassTrainable.
Context `{T : Torch}.
Import Trainables.

(** On an object that has been set up, the outcome of [reset_config] is
    that of the one library call it makes. *)
Lemma reset_config_outcome (new_config : Config) d tr te m o (fs : Files) :
  reset_config new_config (Self d tr te (Some m) (Some o), fs)
  = match SGD (parameters m) (dict_get new_config "lr" (PyFloat 0.01))
                (dict_get new_config "momentum" (PyFloat 0.9)) with
    | inr o' => (inr true, (Self d tr te (Some m) (Some o'), fs))
    | inl e => (inl (Raised e), (Self d tr te (Some m) None, fs))
    end.
Proof. unfold reset_config. run_m. by destruct (SGD _ _ _). Qed.

(** [_setup], step by step. *)
Lemma _setup_outcome (config : Config) (w : World) :
  _setup config w
  = match get_data_loaders with
    | inl e => (inl (Raised e), (set_device (Some cpu) w.1, w.2))
    | inr (tr, te) =>
        let o1 := set_loaders (Some tr) (Some te) (set_device (Some cpu) w.1) in
        match ConvNet with
        | inl e => (inl (Raised e), (o1, w.2))
        | inr net =>
            let o2 := set_model (Some (to net cpu)) o1 in
            match SGD (parameters (to net cpu))
                    (dict_get config "lr" (PyFloat 0.01))
                    (dict_get config "momentum" (PyFloat 0.9)) with
            | inl e => (inl (Raised e), (o2, w.2))
            | inr opt => (inr (), (set_optimizer (Some opt) o2, w.2))
            end
        end
    end.
Proof.
  destruct w as [self fs]. unfold _setup. run_m.
  destruct get_data_loaders as [e|[tr te]]; [done|].
  destruct ConvNet as [e|net]; [done|]. cbn.
  by destruct (SGD _ _ _).
Qed.




End ClassTrainable.

(** C6: whenever the library constructs the optimizer, [reset_config]
    returns [True] and replaces only the optimizer, by the new SGD
    optimizer over the parameters of the same model with the [lr] and
    [momentum] of the new configuration (defaults 0.01 and 0.9).  On every
    object and configuration the model with its weights, the device, the
    data loaders and the checkpoint files stay as they are, and
    [reset_config] returns nothing but [True], which it returns only with
    that new optimizer in place. *)
Theorem reset_config_replaces_only_optimizer `{T : Torch}
    (d : option Device) (tr te : option Loader) (m : Model) (o o' : Optimizer)
    (fs : Files) (new_config : Config) :
  SGD (parameters m)
      (Trainables.dict_get new_config "lr" (PyFloat 0.01))
      (Trainables.dict_get new_config "momentum" (PyFloat 0.9)) = inr o' →
  Trainables.reset_config new_config
    (Trainables.Self d tr te (Some m) (Some o), fs)
  = (inr true, (Trainables.Self d tr te (Some m) (Some o'), fs))
  ∧ (∀ new_config' w,
       let '(r, w') := Trainables.reset_config new_config' w in
       Trainables.device w'.1 = Trainables.device w.1
       ∧ Trainables.train_loader w'.1 = Trainables.train_loader w.1
       ∧ Trainables.test_loader w'.1 = Trainables.test_loader w.1
       ∧ Trainables.model w'.1 = Trainables.model w.1
       ∧ (state_dict <$> Trainables.model w'.1) = (state_dict <$> Trainables.model w.1)
       ∧ w'.2 = w.2
       ∧ (∀ b, r = inr b →
            b = true
            ∧ ∃ m1 o1,
                Trainables.model w.1 = Some m1
                ∧ SGD (parameters m1)
                    (Trainables.dict_get new_config' "lr" (PyFloat 0.01))
                    (Trainables.dict_get new_config' "momentum" (PyFloat 0.9))
                  = inr o1
                ∧ Trainables.optimizer w'.1 = Some o1)).
Proof.
  intros HSGD. split.
  - by rewrite reset_config_outcome, HSGD.
  - clear HSGD.
    intros new_config' w. pose proof (reset_config_frame new_config' w) as Hframe.
    destruct (Trainables.reset_config new_config' w) as [r w'] eqn:Hrun.
    destruct Hframe as (? & ? & ? & Hmodel & ? & Htrue). rewrite Hmodel.
    split_and!; try done. intros b ->. split; [by apply Htrue|].
    destruct w as [[d1 tr1 te1 m1 o1] fs1].
    unfold Trainables.reset_config in Hrun. run_m in Hrun.
    destruct o1 as [o1|]; [|done]. destruct m1 as [m1|]; [|done].
    destruct (SGD _ _ _) as [e|o2] eqn:Ho2; [done|].
    injection Hrun as _ <-. by exists m1, o2.
Qed.

(** The library rejects a learning rate that is not a number: the call
    raises instead of returning [True], and the object has lost its
    optimizer. *)
Lemma reset_config_can_raise :
  Trainables.reset_config (T := Reference.torch) {[ "lr" := PyStr "TODO" ]}
    (Reference.trainable, ∅)
  = (inl (Trainables.Raised (T := Reference.torch) "TypeError"),
     (Trainables.Self (T := Reference.torch) (Some "cpu") (Some "train")
        (Some "test") (Some [1; 2]%float) None, ∅))
  ∧ (Trainables.reset_config (T := Reference.torch) {[ "lr" := PyStr "TODO" ]}
       (Reference.trainable, ∅)).1 ≠ inr true.
Proof. split; [reflexivity | discriminate]. Qed.


(** A class instance after [_setup] of the reference library is
    reconfigured with a new learning rate. *)
Lemma reset_config_witness :
  Trainables.reset_config (T := Reference.torch) {[ "lr" := PyFloat 0.5%float ]}
    (Reference.trainable, ∅)
  = (inr true,
     (Trainables.Self (T := Reference.torch) (Some "cpu") (Some "train")
        (Some "test") (Some [1; 2]%float) (Some ([1; 2], 0.5, 0.9)%float), ∅)).
Proof.
  apply (reset_config_replaces_only_optimizer (T := Reference.torch)
           (Some "cpu") (Some "train") (Some "test") [1; 2]%float
           ([1; 2], 0.01, 0.9)%float ([1; 2], 0.5, 0.9)%float ∅
           {[ "lr" := PyFloat 0.5%float ]}).
  reflexivity.
Defined.


Section Checkpoints.
Context `{T : Torch}.
Import Trainables.

Lemma _save_outcome (checkpoint_dir : string) d tr te m o (fs : Files) :
  _save checkpoint_dir (Self d tr te (Some m) o, fs)
  = let path := os_path_join checkpoint_dir "model.pth" in
    if can_write path
    then (inr path,
          (Self d tr te (Some m) o,
           <[realpath path := dumps (SavedState (state_dict m))]> fs))
    else (inl (Raised (no_such_directory path)), (Self d tr te (Some m) o, fs)).
Proof. unfold _save. run_m. by destruct (can_write _). Qed.



End Checkpoints.




Section Propagation.
Context `{T : Torch}.
Import Trainables.

Lemma range_split (k n : nat) :
  k < n → ∃ rest, range n = range k ++ Z.of_nat k :: rest.
Proof.
  intros Hk. exists (Z.of_nat <$> seq (S k) (n - S k)). unfold range.
  replace n with (k + S (n - S k)) at 1 by lia.
  by rewrite seq_app, fmap_app.
Qed.

(** A loop whose body raises in some pass raises the same exception. *)
Lemma for_each_raises {S A B} (body : A → B → M S B) l1 i l2 acc s acc' s' x s'' :
  for_each body l1 acc s = (inr acc', s') →
  body i acc' s' = (inl x, s'') →
  for_each body (l1 ++ i :: l2) acc s = (inl x, s'').
Proof.
  revert acc s. induction l1 as [|j l1 IH]; intros acc s Hl1 Hbody.
  - cbn in Hl1. injection Hl1 as -> ->. cbn. unfold mbind, M_bind.
    by rewrite Hbody.
  - cbn in Hl1 |- *. unfold mbind, M_bind in Hl1 |- *.
    destruct (body j acc s) as [[e|acc1] s1]; [done|]. by apply IH.
Qed.

(** A pass of the loop of [train_mnist] hands on what [train] or [test]
    raises. *)
Lemma epoch_raises (tr te : Loader) (i : Z) (st : Model * Optimizer)
    (fs : Files) (e : LibError) :
  (train st.1 st.2 tr None).2 = Some e
  ∨ ((train st.1 st.2 tr None).2 = None
     ∧ test (train st.1 st.2 tr None).1.1 te None = inl e) →
  epoch tr te i st fs = (inl (Raised e), fs).
Proof.
  destruct st as [m o]. cbn [fst snd]. intros Hraise.
  unfold epoch, call_train. run_m.
  destruct (train m o tr None) as [[m' o'] r]. cbn [fst snd] in Hraise.
  destruct Hraise as [->|[-> Htest]]; [done|]. by rewrite Htest.
Qed.

(** [train_mnist] once its optimizer is built: the loop alone decides. *)
Lemma train_mnist_loop (config : Config) (fs : Files) net tr te lr mom opt :
  ConvNet = inr net → get_data_loaders = inr (tr, te) →
  config !! "lr" = Some lr → config !! "momentum" = Some mom →
  SGD (parameters net) lr mom = inr opt →
  train_mnist config fs
  = match for_each (epoch tr te) (range 20) (net, opt) fs with
    | (inr _, fs') => (inr (), fs')
    | (inl x, fs') => (inl x, fs')
    end.
Proof.
  intros Hnet Hl Hlr Hmom Hopt. unfold train_mnist. run_m.
  rewrite Hnet, Hl, Hlr, Hmom, Hopt.
  by destruct (for_each _ _ _ _) as [[x|st] fs'].
Qed.

(** [_train] of the class hands on what [train] or [test] raises, and
    keeps the model and optimizer that [train] left behind. *)
Lemma _train_raises d tr te m o (fs : Files) m' o' r (e : LibError) :
  train m o tr (Some d) = (m', o', r) →
  r = Some e ∨ (r = None ∧ test m' te (Some d) = inl e) →
  _train (Self (Some d) (Some tr) (Some te) (Some m) (Some o), fs)
  = (inl (Raised e), (Self (Some d) (Some tr) (Some te) (Some m') (Some o'), fs)).
Proof.
  intros Htrain Hr. unfold _train. run_m. rewrite Htrain. run_m.
  destruct Hr as [->|[-> Htest]]; [done|]. by rewrite Htest.
Qed.

(** The coordinator records the outcome of every trial on its own. *)
Lemma run_lookup (trainable : Config → M Files ()) (configs : list Config) i :
  Tune.run trainable configs !! i = Tune.run_trial trainable <$> configs !! i.
Proof. unfold Tune.run. apply list_lookup_fmap. Qed.

End Propagation.

(** C7: an exception raised by the library during training is not caught
    in the trainable: [train_mnist] and [_train] raise it unchanged.  The
    coordinator records it as the error of that trial alone; the run still
    has one record per configuration, and the record of every other trial
    is what that trial gives on its own. *)
Theorem training_exception_recorded_per_trial `{T : Torch}
    (config : Config) (net : Model) (tr te : Loader) (lr mom : pyval)
    (opt : Optimizer) (k : nat) (st : Model * Optimizer) (dir : Files)
    (e : LibError) :
  ConvNet = inr net → get_data_loaders = inr (tr, te) →
  config !! "lr" = Some lr → config !! "momentum" = Some mom →
  SGD (parameters net) lr mom = inr opt →
  k < 20 →
  Trainables.for_each (Trainables.epoch tr te) (range k) (net, opt) ∅
  = (inr st, dir) →
  (train st.1 st.2 tr None).2 = Some e
  ∨ ((train st.1 st.2 tr None).2 = None
     ∧ test (train st.1 st.2 tr None).1.1 te None = inl e) →
  Trainables.train_mnist config ∅ = (inl (Trainables.Raised e), dir)
  ∧ (∀ d m o fs m' o' r,
       train m o tr (Some d) = (m', o', r) →
       r = Some e ∨ (r = None ∧ test m' te (Some d) = inl e) →
       (Trainables._train
          (Trainables.Self (Some d) (Some tr) (Some te) (Some m) (Some o), fs)).1
       = inl (Trainables.Raised e))
  ∧ (∀ configs i,
       configs !! i = Some config →
       Tune.run Trainables.train_mnist configs !! i
       = Some (Tune.Trial config Tune.ERROR (Some (Trainables.Raised e)) dir)
       ∧ length (Tune.run Trainables.train_mnist configs) = length configs
       ∧ (∀ j c, j ≠ i → configs !! j = Some c →
            Tune.run Trainables.train_mnist configs !! j
            = Some (Tune.run_trial Trainables.train_mnist c))).
Proof.
  intros Hnet Hl Hlr Hmom Hopt Hk Hloop Hraise.
  assert (Hfun : Trainables.train_mnist config ∅
                 = (inl (Trainables.Raised e), dir)).
  { rewrite (train_mnist_loop config ∅ net tr te lr mom opt) by done.
    destruct (range_split k 20 Hk) as [rest ->].
    erewrite for_each_raises; [done | exact Hloop |].
    by apply epoch_raises. }
  split; [done|]. split.
  - intros d m o fs m' o' r Htrain Hr.
    by rewrite (_train_raises d tr te m o fs m' o' r e).
  - intros configs i Hi. split; [|split].
    + rewrite run_lookup, Hi. cbn. unfold Tune.run_trial. by rewrite Hfun.
    + unfold Tune.run. by rewrite length_fmap.
    + intros j c _ Hj. by rewrite run_lookup, Hj.
Qed.

(** Two trials on the reference library whose [train] raises once a weight
    has reached 8: with learning rate 4 the third pass raises, with 0.25
    all twenty passes go through. *)
Lemma training_exception_witness :
  Tune.run (T := Reference.flaky) Trainables.train_mnist
    [Reference.fast; Reference.slow] !! 0
  = Some (Tune.Trial (T := Reference.flaky) Reference.fast Tune.ERROR
            (Some (Trainables.Raised (T := Reference.flaky) "RuntimeError"))
            {[ "model.pth" := SavedModel [4; 4]%float ]})
  ∧ Tune.run (T := Reference.flaky) Trainables.train_mnist
      [Reference.fast; Reference.slow] !! 1
    = Some (Tune.Trial (T := Reference.flaky) Reference.slow Tune.TERMINATED None
              {[ "model.pth" := SavedModel [4; 4]%float ]}).
Proof.
  destruct (training_exception_recorded_per_trial (T := Reference.flaky)
              Reference.fast [0; 0]%float "train" "test"
              (PyFloat 4) (PyFloat 0.9) ([0; 0], 4, 0.9)%float 2
              ([8; 8], ([0; 0], 4, 0.9))%float
              {[ "model.pth" := SavedModel [4; 4]%float ]} "RuntimeError")
    as (_ & _ & Hrun).
  - reflexivity.
  - reflexivity.
  - reflexivity.
  - reflexivity.
  - reflexivity.
  - lia.
  - vm_compute. reflexivity.
  - left. reflexivity.
  - destruct (Hrun [Reference.fast; Reference.slow] 0 eq_refl)
      as (Hfailed & _ & Hothers).
    split; [exact Hfailed|].
    rewrite (Hothers 1 Reference.slow) by done. vm_compute. reflexivity.
Defined.

(** * Further properties of the notebooks' code *)

(** ** [train_mnist] *)

Section FunctionTrainable.
Context `{T : Torch}.
Import Trainables.

Lemma for_each_app {S A B} (body : A → B → M S B) l1 l2 acc s :
  for_each body (l1 ++ l2) acc s
  = match for_each body l1 acc s with
    | (inr acc', s') => for_each body l2 acc' s'
    | (inl x, s') => (inl x, s')
    end.
Proof.
  revert acc s. induction l1 as [|i l1 IH]; intros acc s; [done|].
  cbn. unfold mbind, M_bind. destruct (body i acc s) as [[x|acc1] s1]; [done|].
  apply IH.
Qed.

Lemma range_S n : range (S n) = range n ++ [Z.of_nat n].
Proof. unfold range. by rewrite seq_S, fmap_app. Qed.

(** The working directory exists, so [./model.pth] can be written. *)
Lemma can_write_cwd : can_write "./model.pth" = true.
Proof.
  unfold can_write. change (dirname "./model.pth") with ".".
  by rewrite isdir_cwd, orb_true_r.
Qed.

(** A pass touches no file but the one that [./model.pth] names. *)
Lemma epoch_frame tr te i st (fs : Files) file :
  file ≠ realpath "./model.pth" → (epoch tr te i st fs).2 !! file = fs !! file.
Proof.
  intros Hfile. destruct st as [m o]. unfold epoch, call_train. run_m.
  destruct (train m o tr None) as [[m' o'] [e|]]; [done|].
  destruct (test m' te None) as [e|acc]; [done|].
  case_bool_decide; [|done]. rewrite can_write_cwd. by rewrite lookup_insert_ne.
Qed.

Lemma for_each_epoch_frame tr te l st (fs : Files) file :
  file ≠ realpath "./model.pth" →
  (for_each (epoch tr te) l st fs).2 !! file = fs !! file.
Proof.
  intros Hpath. revert st fs. induction l as [|i l IH]; intros st fs; [done|].
  cbn. unfold mbind, M_bind.
  pose proof (epoch_frame tr te i st fs file Hpath) as Hi.
  destruct (epoch tr te i st fs) as [[x|st1] fs1]; cbn in Hi; [done|].
  by rewrite IH.
Qed.

(** A pass in which neither [train] nor [test] raises. *)
Lemma epoch_ok tr te i st (fs : Files) acc :
  (train st.1 st.2 tr None).2 = None →
  test (train st.1 st.2 tr None).1.1 te None = inr acc →
  epoch tr te i st fs
  = (inr (train st.1 st.2 tr None).1,
     if bool_decide (i `mod` 5 = 0)%Z
     then <[realpath "./model.pth"
            := dumps (SavedModel (train st.1 st.2 tr None).1.1)]> fs
     else fs).
Proof.
  destruct st as [m o]. cbn [fst snd]. intros Htrain Htest.
  unfold epoch, call_train. run_m.
  destruct (train m o tr None) as [[m' o'] r]. cbn [fst snd] in *. subst r.
  rewrite Htest. case_bool_decide; [|done]. by rewrite can_write_cwd.
Qed.

(** After [n] passes without an exception the loop holds the model of the
    [n]-th call of [train]; the checkpoint, if one was written, is the
    model as it was after pass number [5 * ((n - 1) / 5)]. *)
Lemma passes_ok tr te (n : nat) st (fs : Files) :
  (∀ j, j < n →
     (train (Passes.trained tr j st).1 (Passes.trained tr j st).2 tr None).2 = None
     ∧ ∃ acc, test (Passes.trained tr (S j) st).1 te None = inr acc) →
  for_each (epoch tr te) (range n) st fs
  = (inr (Passes.trained tr n st),
     if n is 0 then fs
     else <[realpath "./model.pth" :=
              dumps (SavedModel (Passes.trained tr (S (5 * ((n - 1) / 5))) st).1)]> fs).
Proof.
  induction n as [|n IH]; intros Hok; [done|].
  rewrite range_S, for_each_app, IH by (intros j Hj; apply Hok; lia).
  cbn [for_each]. unfold mbind at 1, M_bind at 1.
  destruct (Hok n) as [Htrain [acc Htest]]; [lia|].
  rewrite (epoch_ok tr te _ _ _ acc Htrain Htest).
  change ((train _ _ tr None).1) with (Passes.trained tr (S n) st).
  cbn [mret M_ret]. f_equal.
  replace (S n - 1) with n by lia.
  case_bool_decide as Hmod.
  - assert (5 * (n / 5) = n) as ->.
    { pose proof (Nat.div_mod_eq n 5). assert (n mod 5 = 0)%nat; [|lia].
      apply Nat2Z.inj. rewrite Nat2Z.inj_mod. exact Hmod. }
    destruct n; [done|]. by rewrite insert_insert_eq.
  - destruct n as [|n]; [done|].
    replace (S n - 1) with n by lia.
    replace (5 * (S n / 5)) with (5 * (n / 5)); [done|].
    assert (S n mod 5 ≠ 0)%nat.
    { intros H0. apply Hmod. change 5%Z with (Z.of_nat 5).
      by rewrite <-Nat2Z.inj_mod, H0. }
    pose proof (Nat.div_mod_eq (S n) 5). pose proof (Nat.div_mod_eq n 5).
    pose proof (Nat.mod_upper_bound (S n) 5). pose proof (Nat.mod_upper_bound n 5).
    lia.
Qed.

End FunctionTrainable.

(** X1: whatever its outcome, [train_mnist] leaves every file of the trial
    directory as it found it, except the one that the path [./model.pth]
    names. *)
Theorem train_mnist_writes_only_checkpoint `{T : Torch}
    (config : Config) (fs : Files) (file : string) :
  file ≠ realpath "./model.pth" →
  (Trainables.train_mnist config fs).2 !! file = fs !! file.
Proof.
  intros Hfile. unfold Trainables.train_mnist. run_m.
  destruct ConvNet as [e|net]; [done|].
  destruct get_data_loaders as [e|[tr te]]; [done|].
  destruct (config !! "lr") as [lr|]; [|done].
  destruct (config !! "momentum") as [mom|]; [|done].
  destruct (SGD _ _ _) as [e|opt]; [done|].
  pose proof (for_each_epoch_frame tr te (range 20) (net, opt) fs file Hfile) as H.
  by destruct (Trainables.for_each _ _ _ _) as [[x|st] fs'].
Qed.

Lemma train_mnist_writes_only_checkpoint_witness :
  (Trainables.train_mnist (T := Reference.torch) Reference.slow
     {[ "notes.txt" := SavedState [7]%float ]}).2 !! "notes.txt"
  = Some (SavedState [7]%float).
Proof.
  rewrite (train_mnist_writes_only_checkpoint (T := Reference.torch)
             Reference.slow _ "notes.txt"); [reflexivity | done].
Defined.

(** X2: when no library call raises, [train_mnist] returns after twenty
    passes, and the checkpoint it leaves in the file of [./model.pth] is
    the model as it was after the sixteenth call of [train] (the pass
    [i = 15]), not the model of the last pass. *)
Theorem train_mnist_checkpoint_is_sixteenth `{T : Torch}
    (config : Config) (fs : Files) net tr te lr mom opt :
  ConvNet = inr net → get_data_loaders = inr (tr, te) →
  config !! "lr" = Some lr → config !! "momentum" = Some mom →
  SGD (parameters net) lr mom = inr opt →
  (∀ j, j < 20 →
     (train (Passes.trained tr j (net, opt)).1
            (Passes.trained tr j (net, opt)).2 tr None).2 = None
     ∧ ∃ acc, test (Passes.trained tr (S j) (net, opt)).1 te None = inr acc) →
  Trainables.train_mnist config fs
  = (inr (),
     <[realpath "./model.pth"
         := dumps (SavedModel (Passes.trained tr 16 (net, opt)).1)]> fs).
Proof.
  intros Hnet Hl Hlr Hmom Hopt Hok.
  rewrite (train_mnist_loop config fs net tr te lr mom opt) by done.
  by rewrite (passes_ok tr te 20 (net, opt) fs Hok).
Qed.

Lemma train_mnist_checkpoint_witness :
  Trainables.train_mnist (T := Reference.torch) Reference.slow ∅
  = (inr (), {[ "model.pth" := SavedModel [4; 4]%float ]}).
Proof.
  apply (train_mnist_checkpoint_is_sixteenth (T := Reference.torch)
           Reference.slow ∅ [0; 0]%float "train" "test"
           (PyFloat 0.25) (PyFloat 0.9) ([0; 0], 0.25, 0.9)%float);
    try reflexivity.
  intros j Hj. split; [|by eexists].
  unfold train; cbn. unfold Reference.train_until. done.
Defined.

(** ** [PytorchTrainble] *)

Section ClassMethods.
Context `{T : Torch}.
Import Trainables.

(** [_train] on an object that has been set up. *)
Lemma _train_outcome d tr te m o (fs : Files) :
  _train (Self (Some d) (Some tr) (Some te) (Some m) (Some o), fs)
  = let '(m', o', r) := train m o tr (Some d) in
    let self' := Self (Some d) (Some tr) (Some te) (Some m') (Some o') in
    match r, test m' te (Some d) with
    | Some e, _ => (inl (Raised e), (self', fs))
    | None, inl e => (inl (Raised e), (self', fs))
    | None, inr acc => (inr {[ "mean_accuracy" := PyFloat acc ]}, (self', fs))
    end.
Proof.
  unfold _train. run_m. destruct (train m o tr (Some d)) as [[m' o'] [e|]]; [done|].
  by destruct (test m' te (Some d)).
Qed.

End ClassMethods.

(** X3: a step of the class-form trainable that does not raise reports the
    accuracy that [test] measures on the model as [train] left it, under
    the single key [mean_accuracy]; it replaces the model and the
    optimizer by the trained ones and leaves the device, the loaders and
    the checkpoint files alone. *)
Theorem _train_reports_accuracy_of_trained_model `{T : Torch}
    d tr te m o (fs : Files) m' o' acc :
  train m o tr (Some d) = (m', o', None) →
  test m' te (Some d) = inr acc →
  Trainables._train
    (Trainables.Self (Some d) (Some tr) (Some te) (Some m) (Some o), fs)
  = (inr {[ "mean_accuracy" := PyFloat acc ]},
     (Trainables.Self (Some d) (Some tr) (Some te) (Some m') (Some o'), fs)).
Proof. intros Htrain Htest. by rewrite _train_outcome, Htrain, Htest. Qed.

Lemma _train_reports_accuracy_witness :
  Trainables._train (T := Reference.torch) (Reference.trainable, ∅)
  = (inr {[ "mean_accuracy" := PyFloat 0.5 ]},
     (Trainables.Self (T := Reference.torch) (Some "cpu") (Some "train")
        (Some "test") (Some [1.01; 2.01]%float)
        (Some ([1; 2], 0.01, 0.9)%float), ∅)).
Proof.
  apply (_train_reports_accuracy_of_trained_model (T := Reference.torch)
           "cpu" "train" "test" [1; 2]%float ([1; 2], 0.01, 0.9)%float ∅
           [1.01; 2.01]%float ([1; 2], 0.01, 0.9)%float 0.5%float);
    reflexivity.
Defined.

(** X4: on an object whose [_setup] has not run, [_train], [_save],
    [_restore] and [reset_config] each raise [AttributeError] for the first
    attribute they read, and leave the object and the files untouched. *)
Theorem methods_need_setup `{T : Torch} (fs : Files) :
  Trainables._train (Trainables.blank, fs)
  = (inl (Trainables.AttributeError "model"), (Trainables.blank, fs))
  ∧ (∀ checkpoint_dir,
       Trainables._save checkpoint_dir (Trainables.blank, fs)
       = (inl (Trainables.AttributeError "model"), (Trainables.blank, fs)))
  ∧ (∀ checkpoint_path,
       Trainables._restore checkpoint_path (Trainables.blank, fs)
       = (inl (Trainables.AttributeError "model"), (Trainables.blank, fs)))
  ∧ (∀ new_config,
       Trainables.reset_config new_config (Trainables.blank, fs)
       = (inl (Trainables.AttributeError "optimizer"), (Trainables.blank, fs))).
Proof. by repeat split. Qed.

(** X5: [_save] never changes the object, also when it raises; it writes
    no file but the one that the checkpoint path names, and when it raises
    it writes nothing. *)
Theorem _save_frame `{T : Torch} (checkpoint_dir : string)
    (w : Trainables.World) (file : string) :
  (Trainables._save checkpoint_dir w).2.1 = w.1
  ∧ (file ≠ realpath (os_path_join checkpoint_dir "model.pth") →
     (Trainables._save checkpoint_dir w).2.2 !! file = w.2 !! file)
  ∧ (∀ x, (Trainables._save checkpoint_dir w).1 = inl x →
          (Trainables._save checkpoint_dir w).2 = w).
Proof.
  destruct w as [[d tr te m o] fs]. destruct m as [m|]; [|done].
  rewrite _save_outcome. cbv zeta.
  destruct (can_write _); [|done].
  split; [done|]. split; [|done].
  intros Hfile. cbn. by rewrite lookup_insert_ne.
Qed.

Lemma _save_frame_witness :
  (Trainables._save (T := Reference.torch) "ckpt"
     (Reference.trainable, {[ "ckpt/other.pth" := SavedState [7]%float ]})).2.2
    !! "ckpt/other.pth"
  = Some (SavedState [7]%float).
Proof.
  rewrite (proj1 (proj2 (_save_frame (T := Reference.torch) "ckpt"
                    (Reference.trainable, {[ "ckpt/other.pth" := SavedState [7]%float ]})
                    "ckpt/other.pth"))); [reflexivity | done].
Defined.

(** X6: [_restore] never writes a file and never touches the device, the
    loaders or the optimizer.  When it raises before [load_state_dict] is
    called (no [model] attribute, no file at the path, a file that
    [torch.load] cannot read) the object is exactly as it was; a missing
    file gives [FileNotFoundError]. *)
Theorem _restore_frame `{T : Torch} (checkpoint_path : string)
    (w : Trainables.World) :
  let '(r, w') := Trainables._restore checkpoint_path w in
  w'.2 = w.2
  ∧ Trainables.device w'.1 = Trainables.device w.1
  ∧ Trainables.train_loader w'.1 = Trainables.train_loader w.1
  ∧ Trainables.test_loader w'.1 = Trainables.test_loader w.1
  ∧ Trainables.optimizer w'.1 = Trainables.optimizer w.1
  ∧ (Trainables.model w.1 = None →
     r = inl (Trainables.AttributeError "model") ∧ w' = w)
  ∧ (is_Some (Trainables.model w.1) → w.2 !! realpath checkpoint_path = None →
     r = inl (Trainables.FileNotFoundError checkpoint_path) ∧ w' = w)
  ∧ (∀ b e, is_Some (Trainables.model w.1) →
       w.2 !! realpath checkpoint_path = Some b → loads b = inl e →
       r = inl (Trainables.Raised e) ∧ w' = w).
Proof.
  destruct w as [[d tr te m o] fs]. unfold Trainables._restore. run_m.
  destruct m as [m|].
  - destruct (fs !! realpath checkpoint_path) as [b|].
    + destruct (loads b) as [e|obj] eqn:Hb.
      * split_and!; try done.
        intros b' e' _ [= <-] He'. rewrite Hb in He'. by simplify_eq.
      * destruct (load_state_dict m obj) as [m' [e|]];
          (split_and!; try done);
          intros b' e' _ [= <-] He'; rewrite Hb in He'; done.
    + by split_and!.
  - split_and!; try done; try (by intros [? [=]]); by intros ? ? [? [=]].
Qed.

(** A restore from a path that was never saved to. *)
Lemma _restore_frame_witness :
  Trainables._restore (T := Reference.torch) "ckpt/model.pth"
    (Reference.trainable, ∅)
  = (inl (Trainables.FileNotFoundError (T := Reference.torch) "ckpt/model.pth"),
     (Reference.trainable, ∅)).
Proof.
  pose proof (_restore_frame (T := Reference.torch) "ckpt/model.pth"
                (Reference.trainable, ∅)) as H.
  destruct (Trainables._restore _ _) as [r w'].
  destruct H as (_ & _ & _ & _ & _ & _ & Hmissing & _).
  destruct (Hmissing (ex_intro _ _ eq_refl) eq_refl) as [-> ->]. reflexivity.
Defined.

(** X7: saving, training one step and restoring hands the state dict that
    was saved before the step to [load_state_dict] on the model as the
    step left it, and keeps the model which that call leaves; the optimizer
    is not rolled back: the object keeps the optimizer as the training step
    left it.  (The directory of the checkpoint exists, no library call
    raises and [torch.load] reads back what [torch.save] wrote.) *)
Theorem restore_rolls_back_model_not_optimizer `{T : Torch}
    (checkpoint_dir : string) d tr te m o (fs : Files) m' o' acc restored :
  let path := os_path_join checkpoint_dir "model.pth" in
  can_write path = true →
  train m o tr (Some d) = (m', o', None) →
  test m' te (Some d) = inr acc →
  loads (dumps (SavedState (state_dict m))) = inr (SavedState (state_dict m)) →
  load_state_dict m' (SavedState (state_dict m)) = (restored, None) →
  (path ← Trainables._save checkpoint_dir;
   Trainables._train;;
   Trainables._restore path)
    (Trainables.Self (Some d) (Some tr) (Some te) (Some m) (Some o), fs)
  = (inr (),
     (Trainables.Self (Some d) (Some tr) (Some te) (Some restored) (Some o'),
      <[realpath path := dumps (SavedState (state_dict m))]> fs)).
Proof.
  intros path Hdir Htrain Htest Hloads Hload. subst path.
  unfold Trainables._save, Trainables._train, Trainables._restore. run_m.
  rewrite Hdir, Htrain, Htest, lookup_insert_eq, Hloads. by rewrite Hload.
Qed.

Lemma restore_rolls_back_witness :
  (path ← Trainables._save (T := Reference.torch) "ckpt";
   Trainables._train (T := Reference.torch);;
   Trainables._restore (T := Reference.torch) path)
    (Reference.trainable, ∅)
  = (inr (),
     (Trainables.Self (T := Reference.torch) (Some "cpu") (Some "train")
        (Some "test") (Some [1; 2]%float) (Some ([1; 2], 0.01, 0.9)%float),
      {[ "ckpt/model.pth" := SavedState [1; 2]%float ]})).
Proof.
  apply (restore_rolls_back_model_not_optimizer (T := Reference.torch)
           "ckpt" "cpu" "train" "test" [1; 2]%float ([1; 2], 0.01, 0.9)%float ∅
           [1.01; 2.01]%float ([1; 2], 0.01, 0.9)%float 0.5%float [1; 2]%float);
    reflexivity.
Defined.

(** X8: reconfiguring an object with the configuration it has just been set
    up with changes nothing: [_setup] followed by [reset_config] on the
    same configuration ends in the state in which [_setup] alone ends,
    with the same exception if [_setup] raises. *)
Theorem reset_config_after_setup_same_config `{T : Torch}
    (config : Config) (w : Trainables.World) :
  (Trainables._setup config;; Trainables.reset_config config) w
  = (Trainables._setup config;; mret true) w.
Proof.
  unfold mbind, Trainables.M_bind. rewrite _setup_outcome.
  destruct get_data_loaders as [e|[tr te]]; [done|].
  destruct ConvNet as [e|net]; [done|]. cbn zeta.
  destruct (SGD _ _ _) as [e|opt] eqn:Hopt; [done|].
  destruct w as [[d0 tr0 te0 m0 o0] fs]. run_m.
  by rewrite reset_config_outcome, Hopt.
Qed.

(** X9: only the latest configuration counts: after a [reset_config] that
    returned, a further [reset_config] behaves as it would have on the
    object before the first one. *)
Theorem reset_config_last_wins `{T : Torch}
    (c1 c2 : Config) (w w1 : Trainables.World) (b : bool) :
  Trainables.reset_config c1 w = (inr b, w1) →
  Trainables.reset_config c2 w1 = Trainables.reset_config c2 w.
Proof.
  destruct w as [[d tr te m o] fs]. unfold Trainables.reset_config at 1. run_m.
  destruct o as [o|]; [|done]. destruct m as [m|]; [|done].
  destruct (SGD (parameters m) (Trainables.dict_get c1 _ _) _) as [e|o1]; [done|].
  intros [= <- <-]. by rewrite !reset_config_outcome.
Qed.

Lemma reset_config_last_wins_witness :
  Trainables.reset_config (T := Reference.torch) Reference.slow
    (Trainables.set_optimizer (T := Reference.torch)
       (Some ([1; 2], 4, 0.9)%float) Reference.trainable, ∅)
  = Trainables.reset_config (T := Reference.torch) Reference.slow
      (Reference.trainable, ∅).
Proof.
  apply (reset_config_last_wins (T := Reference.torch)
           Reference.fast Reference.slow (Reference.trainable, ∅) _ true).
  reflexivity.
Defined.

(** X10: [reset_config] is not atomic.  When the library rejects the new
    configuration, the old optimizer is already deleted: the object is left
    without an [optimizer] attribute, and from then on both [_train] and
    any further [reset_config] raise [AttributeError]. *)
Theorem reset_config_failure_loses_optimizer `{T : Torch}
    (new_config : Config) (w w' : Trainables.World) (e : LibError) :
  Trainables.reset_config new_config w = (inl (Trainables.Raised e), w') →
  Trainables.optimizer w'.1 = None
  ∧ is_Some (Trainables.optimizer w.1)
  ∧ Trainables.model w'.1 = Trainables.model w.1
  ∧ Trainables._train w'
    = (inl (Trainables.AttributeError "optimizer"), w')
  ∧ (∀ config,
       Trainables.reset_config config w'
       = (inl (Trainables.AttributeError "optimizer"), w')).
Proof.
  destruct w as [[d tr te m o] fs]. unfold Trainables.reset_config at 1. run_m.
  destruct o as [o|]; [|done]. destruct m as [m|]; [|done].
  destruct (SGD _ _ _) as [e'|o1]; [|done].
  intros [= <- <-]. by repeat split; eauto.
Qed.

(** The reference library rejects a learning rate that is not a number. *)
Lemma reset_config_failure_witness :
  let w' := (Trainables.set_optimizer (T := Reference.torch) None
               Reference.trainable, ∅) in
  Trainables.reset_config (T := Reference.torch) {[ "lr" := PyStr "TODO" ]}
    (Reference.trainable, ∅)
  = (inl (Trainables.Raised (T := Reference.torch) "TypeError"), w')
  ∧ Trainables._train (T := Reference.torch) w'
    = (inl (Trainables.AttributeError "optimizer"), w').
Proof.
  intros w'.
  assert (Hfail : Trainables.reset_config (T := Reference.torch)
                    {[ "lr" := PyStr "TODO" ]} (Reference.trainable, ∅)
                  = (inl (Trainables.Raised (T := Reference.torch) "TypeError"), w'))
    by reflexivity.
  split; [exact Hfail|].
  exact (proj1 (proj2 (proj2 (proj2
           (reset_config_failure_loses_optimizer (T := Reference.torch)
              _ _ _ _ Hfail))))).
Defined.

(** ** The web-scraping application *)

Section ScrapeFacts.
Import Scrape.

Lemma add_commit_readable df g :
  columns df = ["title"; "link"] → readable g →
  ∃ r, add_commit df g = inr (Frame ["title"; "link"] (rows df ++ [r]))
       ∧ r !! "title" = title_of g ∧ r !! "link" = link_of g
       ∧ dom r ⊆ {["title"; "link"]}.
Proof.
  destruct df as [cols rs]. cbn. intros -> [[title Ht] Hlinks].
  destruct g as [[|msg msgs] links]; [done|]. unfold title_of, link_of in *.
  cbn in *. unfold add_commit, attr. cbn. rewrite Ht. cbn.
  destruct links as [|l links]; cbn.
  - eexists. split; [done|]. cbn. rewrite insert_empty.
    split_and!; [by rewrite lookup_singleton_eq| by rewrite lookup_singleton_ne |].
    rewrite dom_singleton_L. apply union_subseteq_l.
  - destruct Hlinks as [Hnone|[link Hl]]; [discriminate Hnone|].
    cbn in Hl. rewrite Hl. cbn.
    eexists. split; [done|]. cbn.
    split_and!; [by simplify_map_eq..|].
    rewrite !dom_insert_L. set_solver.
Qed.

(** The loop over a page whose elements can all be read. *)
Lemma add_commits_readable soup df :
  columns df = ["title"; "link"] → Forall readable soup →
  ∃ rs, add_commits df soup = inr (Frame ["title"; "link"] (rows df ++ rs))
        ∧ Forall2 (λ g r, r !! "title" = title_of g ∧ r !! "link" = link_of g
                          ∧ dom r ⊆ {["title"; "link"]}) soup rs.
Proof.
  intros Hcols Hsoup. revert df Hcols.
  induction Hsoup as [|g soup Hg Hsoup IH]; intros df Hcols.
  - exists []. split; [|constructor]. destruct df; cbn in *. subst.
    by rewrite app_nil_r.
  - destruct (add_commit_readable df g Hcols Hg) as (r & Hadd & Hr).
    destruct (IH (Frame ["title"; "link"] (rows df ++ [r])) eq_refl)
      as (rs & Hloop & Hrs).
    exists (r :: rs). split; [|by constructor].
    cbn. rewrite Hadd. cbn. rewrite Hloop. cbn. by rewrite <-app_assoc.
Qed.

Lemma add_commits_app df l1 l2 :
  add_commits df (l1 ++ l2) = add_commits df l1 ≫= λ df', add_commits df' l2.
Proof.
  revert df. induction l1 as [|g l1 IH]; intros df; [done|].
  cbn. destruct (add_commit df g) as [e|df1]; [done|]. apply IH.
Qed.

Lemma filter_known_columns (cols l : list string) :
  l ⊆ cols → filter (λ c, c ∉ cols) l = [].
Proof.
  induction l as [|c l IH]; intros Hsub; [done|].
  rewrite filter_cons_False by (intros Hc; apply Hc, Hsub; left).
  apply IH. intros x Hx. apply Hsub. by right.
Qed.

(** Frames with the same columns are appended row-wise. *)
Lemma foldl_append cols df frames :
  columns df = cols → Forall (λ f, columns f = cols) frames →
  foldl append df frames = Frame cols (rows df ++ mjoin (rows <$> frames)).
Proof.
  intros Hdf Hframes. revert df Hdf.
  induction Hframes as [|f frames Hf _ IH]; intros df Hdf.
  - destruct df; cbn in *. subst. by rewrite app_nil_r.
  - cbn. rewrite IH.
    + cbn. by rewrite <-app_assoc.
    + cbn. rewrite Hdf, Hf.
      by rewrite filter_known_columns, app_nil_r.
Qed.

End ScrapeFacts.

(** X11: on a page all of whose commit elements can be read,
    [fetch_commits] returns a frame with the columns [title], [link],
    [repository] and one row per element, in page order: the row of an
    element holds its title, its first issue link if it has one (no link
    otherwise), and the repository name.  An empty page gives the three
    columns and no row. *)
Theorem fetch_commits_rows (web : string → list Scrape.commit_title)
    (repo : string) :
  Forall Scrape.readable (web (Scrape.url repo)) →
  ∃ rs,
    Scrape.fetch_commits web repo
    = inr (Scrape.Frame ["title"; "link"; "repository"] rs)
    ∧ length rs = length (web (Scrape.url repo))
    ∧ Forall2 (λ g r,
                 r !! "title" = Scrape.title_of g
                 ∧ r !! "link" = Scrape.link_of g
                 ∧ r !! "repository" = Some repo
                 ∧ dom r ⊆ {["title"; "link"; "repository"]})
              (web (Scrape.url repo)) rs.
Proof.
  intros Hsoup. unfold Scrape.fetch_commits.
  destruct (add_commits_readable (web (Scrape.url repo))
              (Scrape.Frame ["title"; "link"] []) eq_refl Hsoup)
    as (rs & -> & Hrs).
  exists (<["repository" := repo]> <$> rs). split; [done|].
  split; [rewrite length_fmap; symmetry; by eapply Forall2_length|].
  apply Forall2_fmap_r. eapply Forall2_impl; [exact Hrs|].
  intros g r (Ht & Hl & Hdom). cbn.
  split_and!; [by simplify_map_eq..|].
  rewrite dom_insert_L. apply union_least; [apply union_subseteq_r|].
  etrans; [exact Hdom | apply union_subseteq_l].
Qed.

(** A page with two commits, the second without an issue link. *)
Lemma fetch_commits_rows_witness :
  let page := [ Scrape.CommitTitle [{[ "aria-label" := "Fix bug" ]}]
                                   [{[ "data-url" := "issues/1" ]}];
                Scrape.CommitTitle [{[ "aria-label" := "Add docs" ]}] [] ] in
  ∃ rs,
    Scrape.fetch_commits (λ _, page) "ray-project/ray"
    = inr (Scrape.Frame ["title"; "link"; "repository"] rs)
    ∧ length rs = 2.
Proof.
  intros page.
  destruct (fetch_commits_rows (λ _, page) "ray-project/ray") as (rs & H & Hlen & _).
  - apply Forall_cons. split; [split; [by eexists | right; by eexists]|].
    apply Forall_cons. split; [split; [by eexists | by left]|]. constructor.
  - exists rs. by split.
Defined.

(** X12: [fetch_commits] raises at the first element that cannot be read,
    and then returns no frame at all: [IndexError] for an element without
    a message, [KeyError] for a message without [aria-label] or a first
    issue link without [data-url]. *)
Theorem fetch_commits_first_unreadable (web : string → list Scrape.commit_title)
    (repo : string) good bad rest :
  web (Scrape.url repo) = good ++ bad :: rest →
  Forall Scrape.readable good →
  (Scrape.messages bad = [] →
     Scrape.fetch_commits web repo = inl Scrape.IndexError)
  ∧ (∀ msg, head (Scrape.messages bad) = Some msg →
       msg !! "aria-label" = None →
       Scrape.fetch_commits web repo = inl (Scrape.KeyError "aria-label"))
  ∧ (∀ l, is_Some (Scrape.title_of bad) →
       head (Scrape.issue_links bad) = Some l → l !! "data-url" = None →
       Scrape.fetch_commits web repo = inl (Scrape.KeyError "data-url")).
Proof.
  intros Hpage Hgood. unfold Scrape.fetch_commits. rewrite Hpage.
  rewrite add_commits_app.
  destruct (add_commits_readable good (Scrape.Frame ["title"; "link"] [])
              eq_refl Hgood) as (rs & -> & _).
  cbn. destruct bad as [msgs links]. unfold Scrape.add_commit, Scrape.title_of.
  cbn. split_and!.
  - by intros ->.
  - intros msg Hmsg Hattr. destruct msgs as [|m msgs]; [done|].
    cbn in *. injection Hmsg as ->. unfold Scrape.attr. by rewrite Hattr.
  - intros l [title Ht] Hl Hattr. destruct msgs as [|m msgs]; [done|].
    cbn in *. unfold Scrape.attr. rewrite Ht. cbn.
    destruct links as [|l' links]; [done|]. cbn in *. injection Hl as ->.
    by rewrite Hattr.
Qed.

Lemma fetch_commits_first_unreadable_witness :
  Scrape.fetch_commits
    (λ _, [ Scrape.CommitTitle [{[ "aria-label" := "Fix bug" ]}] [];
            Scrape.CommitTitle [] [];
            Scrape.CommitTitle [{[ "aria-label" := "Add docs" ]}] [] ])
    "ray-project/ray"
  = inl Scrape.IndexError.
Proof.
  apply (fetch_commits_first_unreadable _ "ray-project/ray"
           [Scrape.CommitTitle [{[ "aria-label" := "Fix bug" ]}] []]
           (Scrape.CommitTitle [] [])
           [Scrape.CommitTitle [{[ "aria-label" := "Add docs" ]}] []]);
    [reflexivity | | reflexivity].
  repeat constructor; cbn; by eexists.
Defined.

(** X13: the serial driver returns the rows of the repositories one after
    the other, in the order of [repos], under the three columns; it raises
    as soon as one repository's page cannot be read, and [pd.concat]
    raises [ValueError] when there is no repository at all. *)
Theorem scrape_rows (web : string → list Scrape.commit_title)
    (repos : list string) :
  (repos ≠ [] →
   Forall (λ repo, Forall Scrape.readable (web (Scrape.url repo))) repos →
   ∃ frames,
     Forall2 (λ repo f, Scrape.fetch_commits web repo = inr f) repos frames
     ∧ Scrape.scrape web repos
       = inr (Scrape.Frame ["title"; "link"; "repository"]
                (mjoin (Scrape.rows <$> frames)))
     ∧ length (mjoin (Scrape.rows <$> frames))
       = sum_list ((λ repo, length (web (Scrape.url repo))) <$> repos))
  ∧ (∀ repo e, repo ∈ repos → Scrape.fetch_commits web repo = inl e →
       ∃ e', Scrape.scrape web repos = inl e')
  ∧ Scrape.scrape web [] = inl Scrape.ValueError.
Proof.
  split; [|split; [|done]].
  - intros Hne Hpages.
    assert (∃ frames,
              Forall2 (λ repo f, Scrape.fetch_commits web repo = inr f) repos frames
              ∧ Forall (λ f, Scrape.columns f = ["title"; "link"; "repository"]) frames
              ∧ mapM (Scrape.fetch_commits web) repos = inr frames
              ∧ length (mjoin (Scrape.rows <$> frames))
                = sum_list ((λ repo, length (web (Scrape.url repo))) <$> repos))
      as (frames & Hall & Hcols & HmapM & Hlen).
    { clear Hne. induction Hpages as [|repo repos Hpage _ IH].
      - exists []. by repeat split.
      - destruct IH as (frames & Hall & Hcols & HmapM & Hlen).
        destruct (fetch_commits_rows web repo Hpage) as (rs & Hfetch & Hrs & _).
        exists (Scrape.Frame ["title"; "link"; "repository"] rs :: frames).
        split_and!; [by constructor | by constructor | |].
        + cbn. rewrite Hfetch. cbn. by rewrite HmapM.
        + change (length (rs ++ mjoin (Scrape.rows <$> frames))
                  = length (web (Scrape.url repo))
                    + sum_list ((λ repo, length (web (Scrape.url repo))) <$> repos)).
          by rewrite length_app, Hlen, Hrs. }
    exists frames. split; [done|]. split; [|done].
    unfold Scrape.scrape. rewrite HmapM. cbn.
    destruct frames as [|f frames]; [by apply Forall2_nil_inv_r in Hall|].
    apply Forall_cons in Hcols as [Hf Hcols].
    cbn. f_equal. rewrite (foldl_append _ _ _ Hf Hcols).
    by destruct f.
  - intros repo e Hin Hfail. unfold Scrape.scrape.
    assert (∃ e', mapM (Scrape.fetch_commits web) repos = inl e') as [e' ->];
      [|by eexists].
    induction repos as [|r repos IH]; [by apply elem_of_nil in Hin|].
    cbn. apply elem_of_cons in Hin as [<-|Hin].
    + rewrite Hfail. by eexists.
    + destruct (Scrape.fetch_commits web r) as [e1|f]; [by eexists|]. cbn.
      destruct (IH Hin) as [e' ->]. by eexists.
Qed.

Lemma scrape_rows_witness :
  let page := [ Scrape.CommitTitle [{[ "aria-label" := "Fix bug" ]}] [] ] in
  ∃ frames,
    Scrape.scrape (λ _, page) Scrape.repos
    = inr (Scrape.Frame ["title"; "link"; "repository"]
             (mjoin (Scrape.rows <$> frames)))
    ∧ length (mjoin (Scrape.rows <$> frames)) = 4.
Proof.
  intros page.
  destruct (proj1 (scrape_rows (λ _, page) Scrape.repos)) as (frames & _ & H & Hlen).
  - done.
  - apply Forall_forall. intros repo _. apply Forall_cons.
    split; [split; [by eexists | by left] | constructor].
  - exists frames. by split.
Defined.

(** ** Shapes in the data pipeline *)

Lemma length_sum_axis0 (a : Numpy.matrix) (c : nat) :
  a ≠ [] → Forall (λ row, length row = c) a → length (Numpy.sum_axis0 a) = c.
Proof.
  destruct a as [|r rs]; [done|]. intros _ [Hr Hrs]%Forall_cons. cbn.
  revert r Hr. induction Hrs as [|r' rs Hr' _ IH]; intros r Hr; [done|].
  cbn. apply IH. rewrite length_zip_with. lia.
Qed.

(** X14: the stages keep the data rectangular: for a matrix with rows of
    length [c], [normalize_data] returns as many rows, each of length [c],
    and [extract_features] as many rows of length [2 * c], which is the
    [dim] that [compute_loss] reads off the shape. *)
Theorem pipeline_shapes (data : Numpy.matrix) (c : nat) :
  Forall (λ row, length row = c) data →
  let normalized_data := Exercise2.normalize_data data in
  let features := Exercise2.extract_features normalized_data in
  length normalized_data = length data
  ∧ Forall (λ row, length row = c) normalized_data
  ∧ length features = length data
  ∧ Forall (λ row, length row = 2 * c) features
  ∧ (data ≠ [] → Numpy.shape features = (length data, 2 * c)).
Proof.
  intros Hrect normalized_data features.
  assert (Hlen : length normalized_data = length data).
  { unfold normalized_data, Exercise2.normalize_data, Numpy.sub_rows.
    by rewrite length_fmap. }
  assert (Hnd : Forall (λ row, length row = c) normalized_data).
  { unfold normalized_data, Exercise2.normalize_data, Numpy.sub_rows.
    destruct (decide (data = [])) as [->|Hne]; [constructor|].
    apply Forall_fmap. eapply Forall_impl; [exact Hrect|].
    intros row Hrow. cbn in Hrow |- *. unfold Numpy.mean_axis0.
    rewrite length_zip_with, length_fmap, (length_sum_axis0 data c), Hrow by done.
    lia. }
  assert (Hflen : length features = length data).
  { unfold features, Exercise2.extract_features, Numpy.hstack, Numpy.square2.
    rewrite length_zip_with, length_fmap. lia. }
  assert (Hf : Forall (λ row, length row = 2 * c) features).
  { unfold features, Exercise2.extract_features, Numpy.hstack, Numpy.square2.
    clear -Hnd. induction Hnd as [|row nd Hrow _ IH]; [constructor|].
    cbn. constructor; [|done].
    unfold Numpy.square. rewrite length_app, length_fmap. lia. }
  split_and!; try done.
  intros Hne. unfold Numpy.shape. rewrite Hflen. f_equal.
  destruct features as [|row features']; [by destruct data|].
  by apply Forall_cons in Hf as [-> _].
Qed.

Lemma pipeline_shapes_witness :
  Numpy.shape
    (Exercise2.extract_features
       (Exercise2.normalize_data [[1; 2; 3]; [4; 5; 6]]%float))
  = (2, 6).
Proof.
  destruct (pipeline_shapes [[1; 2; 3]; [4; 5; 6]]%float 3) as (_ & _ & _ & _ & H).
  - repeat constructor.
  - by apply H.
Defined.

(** ** Blocking in [ray.get] *)

Lemma finish_store_subset rt j id v :
  Ray.store (Ray.finish rt j) !! id = Some v →
  Ray.store rt !! id = Some v ∨ id = j.
Proof.
  unfold Ray.finish. destruct (Ray.pending rt !! j) as [w|]; [|by left].
  cbn. destruct (decide (id = j)) as [->|Hne]; [by right|].
  rewrite lookup_insert_ne by done. by left.
Qed.

Lemma run_schedule_store_subset schedule rt id v :
  Ray.store (Ray.run_schedule schedule rt) !! id = Some v →
  Ray.store rt !! id = Some v ∨ id ∈ schedule.
Proof.
  revert rt. induction schedule as [|j schedule IH]; intros rt; [by left|].
  cbn. intros [H|H]%IH; [|right; by right].
  apply finish_store_subset in H as [H| ->]; [by left | right; by left].
Qed.

Lemma submit_all_store f args rt :
  Ray.store (Exercise1.submit_all f args rt).2 = Ray.store rt.
Proof.
  revert rt. induction args as [|a args IH]; intros rt; [done|].
  cbn. specialize (IH (Ray.Runtime (S (Ray.next_id rt))
                         (<[Ray.next_id rt := f a]> (Ray.pending rt)) (Ray.store rt))).
  by destruct (Exercise1.submit_all f args _) as [ids rt'].
Qed.

(** X15: for any remote function and any list of arguments, [ray.get] on
    the object IDs of the submission loop has a result exactly when every
    submitted task has finished, and the result is then the list of the
    function's values in submission order; while one task is still
    running the call stays blocked. *)
Theorem ray_get_blocks_until_all_finished (f : Z → Z) (args : list Z)
    (schedule : list Ray.ObjectID) :
  let '(ids, rt) := Exercise1.submit_all f args Ray.init in
  Ray.get ids (Ray.run_schedule schedule rt)
  = if bool_decide (ids ⊆ schedule) then Some (f <$> args) else None.
Proof.
  pose proof (get_submit_all f args Ray.init schedule) as Hget.
  pose proof (submit_all_store f args Ray.init) as Hstore.
  destruct (Exercise1.submit_all f args Ray.init) as [ids rt]. cbn in Hstore.
  case_bool_decide as Hsub; [by apply Hget|].
  apply mapM_None. apply Exists_exists.
  assert (Exists (λ id, id ∉ schedule) ids) as (id & Hid & Hnot)%Exists_exists.
  { apply (not_Forall_Exists (λ id, id ∈ schedule)).
    intros H. apply Hsub. intros id Hid. by eapply Forall_forall in H. }
  exists id. split; [done|].
  destruct (Ray.store (Ray.run_schedule schedule rt) !! id) as [v|] eqn:Hv; [|done].
  apply run_schedule_store_subset in Hv as [Hv|Hv]; [|done].
  by rewrite Hstore in Hv.
Qed.
